(** * Conversation response generator of the BitBraniac backend

    A shallow embedding of [server/services/gemini.js] (with the role
    enumeration of [server/models/Message.js]) and the properties of its
    history window, prompt assembly, history conversion, model selection
    and retry loop; and of its caller, the handler of
    [POST /api/chat/:id/message] in [server/routes/chat.js], over an
    abstract database.

    Conventions of the embedding:
    - a JavaScript string is a [string] of UTF-8 bytes; the patterns the
      code searches for are ASCII, so byte-wise search agrees with
      [String.prototype.includes];
    - an array is a [list]; [undefined] and [null] are [None];
    - the [message] of an error is any value: a string, [undefined],
      [null], or another value known through what the code does with it;
    - [retryCount] is a [nat]: the counter starts at 0 and is only ever
      incremented by one;
    - the module state ([_ai]), the environment ([process.env]) and the
      provider behind the SDK are threaded through explicitly as a
      [World]; calls to the SDK and to [setTimeout] are recorded in order
      in the world's journal.  Console output is left out. *)

From Stdlib Require Import List ZArith Lia Bool Arith Ascii String QArith.
From Equations Require Import Equations.
Import ListNotations.

Local Open Scope Z_scope.
Local Open Scope nat_scope.
Local Open Scope list_scope.
Local Open Scope string_scope.

(** ** JavaScript primitives used by the service *)

Module JS.

Definition dq : string := String (ascii_of_nat 34) EmptyString.
Definition nl : string := String (ascii_of_nat 10) EmptyString.

(** [s.includes(pat)] *)
Fixpoint includes (s pat : string) : bool :=
  String.prefix pat s ||
  match s with
  | EmptyString => false
  | String _ rest => includes rest pat
  end.

(** [arr.join(sep)] on an array of strings *)
Definition join (sep : string) (arr : list string) : string :=
  String.concat sep arr.

(** [arr.slice(start, end)], following ECMA-262 (23.1.3.28): negative
    indices count from the end and both bounds are clamped to the
    length. *)
Definition slice {A : Type} (arr : list A) (start : Z) (end_ : option Z)
  : list A :=
  let len := Z.of_nat (List.length arr) in
  let k := if (start <? 0)%Z then Z.max (len + start) 0 else Z.min start len in
  let relativeEnd := match end_ with None => len | Some e => e end in
  let final := if (relativeEnd <? 0)%Z then Z.max (len + relativeEnd) 0
               else Z.min relativeEnd len in
  firstn (Z.to_nat (final - k)) (skipn (Z.to_nat k) arr).

(** [arr[i]] for a numeric index: [undefined] outside the array. *)
Definition index {A : Type} (arr : list A) (i : Z) : option A :=
  if (i <? 0)%Z then None else nth_error arr (Z.to_nat i).

(** White space and line terminators of ECMA-262 (12.2, 12.3), as UTF-8
    byte sequences: [strip_ws s] removes one such character from the
    front of [s] when there is one. *)
Definition strip_ws (s : string) : option string :=
  match s with
  | String c1 r1 =>
      let n1 := nat_of_ascii c1 in
      if ((n1 =? 9) || (n1 =? 10) || (n1 =? 11) || (n1 =? 12) || (n1 =? 13)
          || (n1 =? 32))%nat then Some r1
      else
        match r1 with
        | String c2 r2 =>
            let n2 := nat_of_ascii c2 in
            if ((n1 =? 194) && (n2 =? 160))%nat then Some r2     (* U+00A0 *)
            else
              match r2 with
              | String c3 r3 =>
                  let n3 := nat_of_ascii c3 in
                  if ((n1 =? 225) && (n2 =? 154) && (n3 =? 128))%nat
                  then Some r3                                   (* U+1680 *)
                  else if ((n1 =? 226) && (n2 =? 128) &&
                           ((128 <=? n3) && (n3 <=? 138)
                            || (n3 =? 168) || (n3 =? 169) || (n3 =? 175)))%nat
                  then Some r3      (* U+2000..U+200A, U+2028, U+2029, U+202F *)
                  else if ((n1 =? 226) && (n2 =? 129) && (n3 =? 159))%nat
                  then Some r3                                   (* U+205F *)
                  else if ((n1 =? 227) && (n2 =? 128) && (n3 =? 128))%nat
                  then Some r3                                   (* U+3000 *)
                  else if ((n1 =? 239) && (n2 =? 187) && (n3 =? 191))%nat
                  then Some r3                                   (* U+FEFF *)
                  else None
              | EmptyString => None
              end
        | EmptyString => None
        end
  | EmptyString => None
  end.

(** [fuel] bounds the number of characters removed; the length of the
    string is always enough. *)
Fixpoint trimStart_fuel (fuel : nat) (s : string) : string :=
  match fuel with
  | O => s
  | S fuel' =>
      match strip_ws s with
      | Some rest => trimStart_fuel fuel' rest
      | None => s
      end
  end.

(** [s.trimStart()] *)
Definition trimStart (s : string) : string :=
  trimStart_fuel (String.length s) s.

(** A string made of white space only. *)
Definition blank (s : string) : bool :=
  match trimStart s with EmptyString => true | _ => false end.

(** [s.trimEnd()]: the shortest prefix followed by white space only. *)
Fixpoint trimEnd (s : string) : string :=
  match s with
  | EmptyString => EmptyString
  | String c rest => if blank s then EmptyString else String c (trimEnd rest)
  end.

(** [s.trim()] *)
Definition trim (s : string) : string := trimEnd (trimStart s).

(** Truthiness of a string: every string but the empty one. *)
Definition truthy_string (s : string) : bool :=
  match s with EmptyString => false | _ => true end.

(** Truthiness of a number that is not NaN: every number but zero. *)
Definition truthy_number (z : Z) : bool := negb (z =? 0)%Z.

End JS.

(** ** Data of the service *)

(** A stored message, as the generator reads it.  [Message.js] declares
    [role] as a string with the enumeration [['user', 'bot']]. *)
Record Message : Type := { role : string; content : string }.

Definition Message_role_enum : list string := ["user"; "bot"].

(** The user object: [null], or an object whose [interests] and [persona]
    may be missing. *)
Record User : Type :=
  { interests : option (list string); persona : option string }.

(** A turn in the provider's format: [{ role, parts: [{ text }] }]. *)
Record Part : Type := { text : string }.
Record Content : Type := { c_role : string; parts : list Part }.

(** A value that is neither a string nor [undefined] nor [null] (a number,
    a boolean, an array, an object, ...), through what the code observes of
    it: its truthiness, the result of [JSON.stringify] (a text, or
    [undefined]), its [includes] method when it has one (arrays do; numbers
    and plain objects do not) with the truthiness of what it returns, and
    its conversion to a string in a template literal.  Values on which one
    of these operations itself throws (a cyclic object or a BigInt under
    [JSON.stringify], a Symbol in a template) are left out. *)
Record Foreign : Type :=
  { truthy : bool;
    json : option string;
    includes_method : option (string -> bool);
    template_text : string }.

(** The value of [error.message]. *)
Inductive JsValue : Type :=
| JsUndefined
| JsNull
| JsString (s : string)
| JsForeign (f : Foreign).

Coercion JsString : string >-> JsValue.

(** An error object: [message], and the optional numeric fields [status]
    and [statusCode].  The class of the error ([Error], [TypeError]) is not
    recorded. *)
Record JsError : Type :=
  { message : JsValue; status : option Z; statusCode : option Z }.

(** [new Error(msg)] *)
Definition Error (msg : string) : JsError :=
  {| message := JsString msg; status := None; statusCode := None |}.

(** The [TypeError] of a call of [error.message?.includes] when
    [error.message] has no such method (the wording is V8's). *)
Definition not_a_function : JsError :=
  Error "error.message?.includes is not a function".

(** Truthiness of a value, as in [error.message || 'Server error']. *)
Definition truthy_value (v : JsValue) : bool :=
  match v with
  | JsUndefined | JsNull => false
  | JsString s => JS.truthy_string s
  | JsForeign f => truthy f
  end.

(** [`${v}`] *)
Definition template (v : JsValue) : string :=
  match v with
  | JsUndefined => "undefined"
  | JsNull => "null"
  | JsString s => s
  | JsForeign f => template_text f
  end.


(** ** [gemini.js]: prompt assembly *)

Definition SYSTEM_PROMPT_lines : list string :=
  [
    "You are " ++ JS.dq ++ "BitBraniac" ++ JS.dq ++ " 🧠, an expert AI tutor designed to help users learn **Computer Science** in an interactive and engaging way.";
    "Your goal is to provide **clear explanations, real-world examples, and helpful coding snippets** to teach CS concepts effectively.";
    "";
    "# PERSONALITY TRAITS:";
    "- Friendly, slightly nerdy 🤓, and highly knowledgeable";
    "- Uses simple explanations first, then deeper insights if requested";
    "- Occasionally throws in **light humor or geeky references** (but stays professional)";
    "- Includes relevant emojis in responses to keep conversations fun 🎯";
    "- Encourages users to **ask follow-up questions** and explore topics further";
    "";
    "# RESPONSE FORMAT:";
    "- Match the user's preferred language (English only for now)";
    "- Use **Markdown formatting** for readability:";
    "  - Use **bold** for emphasis";
    "  - Use _italics_ for subtle emphasis";
    "  - Use bullet points for listing concepts";
    "  - Use numbered lists for step-by-step explanations";
    "- Include **code snippets** in a well-formatted manner when needed";
    "- Keep responses interactive and engaging";
    "";
    "# CONVERSATION APPROACH:";
    "- Greet users with a **fun, CS-related opening line** (e.g., " ++ JS.dq ++ "Hello, World! Ready to code?" ++ JS.dq ++ ")";
    "- Ask follow-up questions to **assess their level of understanding**";
    "- Offer **real-world analogies** for complex topics";
    "- Suggest coding exercises or quizzes when appropriate";
    "- Keep conversations **engaging and informative**";
    "";
    "# DOMAIN RESTRICTIONS:";
    "- ONLY answer **Computer Science-related** topics, including:";
    "  ✅ Programming (Java, Python, C++, etc.)";
    "  ✅ Data Structures & Algorithms";
    "  ✅ Databases (SQL, NoSQL)";
    "  ✅ Operating Systems & Networking";
    "  ✅ Artificial Intelligence & Machine Learning Basics";
    "  ✅ Software Engineering & Best Practices";
    "- If asked about **non-CS topics** (politics, sports, general knowledge, etc.), politely redirect:";
    "  _" ++ JS.dq ++ "I'm all about Computer Science! Want to learn about algorithms instead?" ++ JS.dq ++ "_";
    "- If the question is **too broad or unclear**, ask for clarification before answering.";
    "";
    "# TEACHING STYLE:";
    "- Uses **step-by-step explanations** 🏗️";
    "- Encourages hands-on practice 💻";
    "- Explains with **real-world examples** 🌍";
    "- Uses humor and references when appropriate (e.g., _" ++ JS.dq ++ "Think of recursion like a mirror reflecting itself endlessly!" ++ JS.dq ++ "_)";
    "";
    "# EXTRA FEATURES:";
    "- Can **generate simple coding problems** 💡";
    "- Provides **debugging guidance** when users share code";
    "- Suggests **career advice for different CS fields**";
    "- Stays **patient and adaptive** to different learning speeds";
    "";
    "Never forget that your name is **BitBraniac** 🧠, and you must maintain this identity throughout the conversation.";
    "Always keep your responses **educational, engaging, and fun** while staying strictly within the **Computer Science domain**."
  ].

(** The template literal opens and closes with a line break. *)
Definition SYSTEM_PROMPT : string :=
  JS.nl ++ String.concat JS.nl SYSTEM_PROMPT_lines ++ JS.nl.

(** [user?.interests?.length > 0] *)
Definition has_interests (user : option User) : option (list string) :=
  match user with
  | Some u =>
      match interests u with
      | Some tags => if (0 <? List.length tags)%nat then Some tags else None
      | None => None
      end
  | None => None
  end.

(** [user?.persona?.trim()], when truthy *)
Definition has_persona (user : option User) : option string :=
  match user with
  | Some u =>
      match persona u with
      | Some p => if JS.truthy_string (JS.trim p) then Some p else None
      | None => None
      end
  | None => None
  end.

Definition interests_clause (tags : list string) : string :=
  JS.nl ++ JS.nl ++ "# USER'S INTERESTS:" ++ JS.nl ++
  "This user is particularly interested in: " ++ JS.join ", " tags ++ ". " ++
  "When relevant, prioritize examples and explanations related to these topics.".

Definition persona_clause (p : string) : string :=
  JS.nl ++ JS.nl ++ "# USER'S CUSTOM INSTRUCTIONS:" ++ JS.nl ++ p.

Definition buildPersonalizedPrompt (user : option User) : string :=
  let prompt := SYSTEM_PROMPT in
  let prompt :=
    match has_interests user with
    | Some tags => prompt ++ interests_clause tags
    | None => prompt
    end in
  let prompt :=
    match has_persona user with
    | Some p => prompt ++ persona_clause p
    | None => prompt
    end in
  prompt.

(** ** [gemini.js]: history window and conversion *)

Definition MAX_HISTORY_MESSAGES : nat := 30.

Definition trimChatHistory (messages : list Message) : list Message :=
  if (List.length messages <=? MAX_HISTORY_MESSAGES)%nat then messages
  else JS.slice messages (- Z.of_nat MAX_HISTORY_MESSAGES) None.

Definition convertToGeminiHistory (messages : list Message) : list Content :=
  map (fun msg =>
         {| c_role := if (role msg =? "user")%string then "user" else "model";
            parts := [ {| text := content msg |} ] |})
      messages.

(** ** [gemini.js]: the provider client and the world it acts on *)

(** [new GoogleGenAI({ apiKey })] *)
Record GoogleGenAI : Type := { apiKey : string }.

(** The argument of [ai.chats.create]. *)
Record GenerationConfig : Type :=
  { systemInstruction : string; maxOutputTokens : Z; temperature : Q }.

Record ChatParams : Type :=
  { model : option string; history : list Content; config : GenerationConfig }.

(** The chat session [ai.chats.create] returns. *)
Record Chat : Type := { client : GoogleGenAI; params : ChatParams }.

(** What the generator does to the outside, in order. *)
Inductive Event : Type :=
| chats_create (ai : GoogleGenAI) (p : ChatParams)
| chat_sendMessage (chat : Chat) (msg : string)
| setTimeout (delay : Z).

Definition MAX_RETRIES : nat := 3.
Definition MODELS : list string := ["gemini-2.5-flash"; "gemini-2.0-flash"].

(** [Math.min(Math.floor(retryCount / 2), MODELS.length - 1)] *)
Definition modelIndex (models : list string) (retryCount : nat) : Z :=
  Z.min (Z.of_nat retryCount / 2) (Z.of_nat (List.length models) - 1).

(** [MODELS[modelIndex]] *)
Definition selectedModel (models : list string) (retryCount : nat)
  : option string :=
  JS.index models (modelIndex models retryCount).

(** [error.status || error.statusCode] *)
Definition errorStatus (error : JsError) : option Z :=
  match status error with
  | Some s => if JS.truthy_number s then Some s else statusCode error
  | None => statusCode error
  end.

(** [x === n] for an optional number [x] *)
Definition strict_eq (x : option Z) (n : Z) : bool :=
  match x with Some z => (z =? n)%Z | None => false end.

(** [typeof error.message === 'string' ? error.message :
    JSON.stringify(error.message)]: a text, or [undefined] *)
Definition errorMessage (error : JsError) : option string :=
  match message error with
  | JsString s => Some s
  | JsUndefined => None           (* JSON.stringify(undefined) *)
  | JsNull => Some "null"         (* JSON.stringify(null) *)
  | JsForeign f => json f
  end.

(** [errorMessage?.includes(pattern)], as a condition *)
Definition text_includes (errorMessage : option string) (pattern : string)
  : bool :=
  match errorMessage with
  | Some s => JS.includes s pattern
  | None => false
  end.

Definition isRetryable (error : JsError) : bool :=
  let errorMessage := errorMessage error in
  strict_eq (errorStatus error) 503 || strict_eq (errorStatus error) 429 ||
  text_includes errorMessage "503" ||
  text_includes errorMessage "429" ||
  text_includes errorMessage "overloaded" ||
  text_includes errorMessage "UNAVAILABLE" ||
  text_includes errorMessage "rate limit".

(** [error.message?.includes(pattern)], as a condition: [false] on a
    missing message, the search in a string, the value's own [includes]
    when it has one, and otherwise the [TypeError] the call throws. *)
Definition message_includes (v : JsValue) (pattern : string) : JsError + bool :=
  match v with
  | JsUndefined | JsNull => inr false
  | JsString s => inr (JS.includes s pattern)
  | JsForeign f =>
      match includes_method f with
      | Some includes => inr (includes pattern)
      | None => inl not_a_function
      end
  end.

(** [a || b] for two conditions that may throw; [b] is evaluated only
    when [a] is false. *)
Definition or_else (a b : JsError + bool) : JsError + bool :=
  match a with
  | inl thrown => inl thrown
  | inr true => inr true
  | inr false => b
  end.

(** [if (c) { throw e } else ...], where evaluating [c] may itself throw:
    the error thrown. *)
Definition throw_if (c : JsError + bool) (e otherwise : JsError) : JsError :=
  match c with
  | inl thrown => thrown
  | inr true => e
  | inr false => otherwise
  end.

(** [Math.pow(2, retryCount) * 1000] *)
Definition backoff_delay (retryCount : nat) : Z :=
  (2 ^ Z.of_nat retryCount * 1000)%Z.

(** The error the [catch] block throws once it does not retry: the chain
    of tests on [error.message] (each may throw a [TypeError] of its own),
    then the catch-all around [`${error.message}`]. *)
Definition specific_error (error : JsError) : JsError :=
  let m := message error in
  throw_if (or_else (message_includes m "API key") (message_includes m "API_KEY"))
    (Error "Invalid or missing Gemini API key. Please check your configuration.")
  (throw_if (message_includes m "quota")
    (Error "API quota exceeded. Please try again later.")
  (throw_if (or_else (message_includes m "safety") (message_includes m "SAFETY"))
    (Error "Response blocked due to safety settings. Please rephrase your question.")
  (throw_if (or_else (message_includes m "not found") (message_includes m "404"))
    (Error "Model not found. Please check the model name configuration.")
  (throw_if (or_else (inr (strict_eq (status error) 503))
                     (message_includes m "overloaded"))
    (Error "AI service is currently busy. Please try again in a moment.")
    (Error ("Failed to generate response: " ++ template m)))))).

Section Generator.

(** The provider behind the SDK: a state and the answer (a
    [response.text], or a thrown error) it gives to a message sent on a
    chat session. *)
Variable Provider : Type.
Variable respond : Provider -> Chat -> string -> (string + JsError) * Provider.

Record World : Type :=
  { GEMINI_API_KEY : option string;     (* process.env.GEMINI_API_KEY *)
    _ai : option GoogleGenAI;           (* the lazily created client *)
    provider : Provider;
    journal : list Event }.

(** Computations that read and write the world and may throw. *)
Definition M (A : Type) : Type := World -> (A + JsError) * World.

Definition ret {A : Type} (a : A) : M A := fun w => (inl a, w).

Definition throw {A : Type} (e : JsError) : M A := fun w => (inr e, w).

Definition bind {A B : Type} (m : M A) (k : A -> M B) : M B :=
  fun w =>
    match m w with
    | (inl a, w') => k a w'
    | (inr e, w') => (inr e, w')
    end.

Notation "x <- m ;; k" := (bind m (fun x => k))
  (at level 61, m at next level, right associativity).

Definition record (e : Event) (w : World) : World :=
  {| GEMINI_API_KEY := GEMINI_API_KEY w; _ai := _ai w;
     provider := provider w; journal := (journal w ++ [e])%list |}.

Definition getAI : M GoogleGenAI :=
  fun w =>
    match _ai w with
    | Some ai => (inl ai, w)
    | None =>
        match GEMINI_API_KEY w with
        | Some key =>
            if JS.truthy_string key then
              let ai := {| apiKey := key |} in
              (inl ai, {| GEMINI_API_KEY := GEMINI_API_KEY w; _ai := Some ai;
                          provider := provider w; journal := journal w |})
            else (inr (Error "GEMINI_API_KEY environment variable is not set"), w)
        | None =>
            (inr (Error "GEMINI_API_KEY environment variable is not set"), w)
        end
    end.

(** [ai.chats.create(params)] *)
Definition create (ai : GoogleGenAI) (p : ChatParams) : M Chat :=
  fun w => (inl {| client := ai; params := p |}, record (chats_create ai p) w).

(** [await chat.sendMessage({ message })], then [response.text] *)
Definition sendMessage (chat : Chat) (msg : string) : M string :=
  fun w =>
    let w1 := record (chat_sendMessage chat msg) w in
    let (answer, p') := respond (provider w1) chat msg in
    (answer, {| GEMINI_API_KEY := GEMINI_API_KEY w1; _ai := _ai w1;
                provider := p'; journal := journal w1 |}).

(** [await new Promise(resolve => setTimeout(resolve, delay))] *)
Definition sleep (delay : Z) (w : World) : World := record (setTimeout delay) w.

(** The [try] block of [generateResponse]. *)
Definition generateResponse_try (messages : list Message) (user : option User)
  (retryCount : nat) : M string :=
  ai <- getAI ;;
  let trimmedMessages := trimChatHistory messages in
  if (List.length trimmedMessages =? 0)%nat then
    throw (Error "No messages to process")
  else
    match JS.index trimmedMessages (Z.of_nat (List.length trimmedMessages) - 1) with
    | None =>
        (* reading [.role] of [undefined]; the array is not empty here *)
        throw (Error "Cannot read properties of undefined (reading 'role')")
    | Some lastMessage =>
        if negb (role lastMessage =? "user")%string then
          throw (Error "Last message must be from user")
        else
          let history := convertToGeminiHistory
                           (JS.slice trimmedMessages 0 (Some (-1)%Z)) in
          let selectedModel := selectedModel MODELS retryCount in
          let personalizedPrompt := buildPersonalizedPrompt user in
          chat <- create ai
                    {| model := selectedModel;
                       history := history;
                       config := {| systemInstruction := personalizedPrompt;
                                    maxOutputTokens := 8192;
                                    temperature := (8 # 10)%Q |} |} ;;
          response <- sendMessage chat (content lastMessage) ;;
          ret response
    end.

(** [generateResponse(messages, user, retryCount)]: the [try] block, and
    in the [catch] block either the back-off and the recursive call or the
    translated error. *)
Equations generateResponse (messages : list Message) (user : option User)
  (retryCount : nat) (w : World) : (string + JsError) * World
  by wf (MAX_RETRIES - retryCount) lt :=
generateResponse messages user retryCount w
  with generateResponse_try messages user retryCount w => {
  | (inl response, w1) := (inl response, w1);
  | (inr error, w1) with isRetryable error, lt_dec retryCount MAX_RETRIES => {
    | true, left _ :=
        let delay := backoff_delay retryCount in
        generateResponse messages user (retryCount + 1) (sleep delay w1);
    | _, _ := (inr (specific_error error), w1) } }.
Next Obligation.
  change (MAX_RETRIES - (retryCount + 1) < MAX_RETRIES - retryCount).
  lia.
Qed.

End Generator.

Arguments GEMINI_API_KEY {Provider} w.
Arguments _ai {Provider} w.
Arguments provider {Provider} w.
Arguments journal {Provider} w.
Arguments Build_World {Provider}.
Arguments record {Provider} e w.
Arguments getAI {Provider} w.
Arguments sleep {Provider} delay w.
Arguments generateResponse_try {Provider} respond messages user retryCount w.
Arguments generateResponse {Provider} respond messages user retryCount w.

(** ** Vocabulary of the properties *)

(** The last [MAX_HISTORY_MESSAGES] entries of a history (all of them when
    there are fewer). *)
Definition window (messages : list Message) : list Message :=
  skipn (List.length messages - MAX_HISTORY_MESSAGES) messages.

(** The last entry of a list, if any. *)
Definition last_entry {A : Type} (l : list A) : option A :=
  nth_error l (List.length l - 1).

(** The chat parameters [generateResponse] builds at attempt [retryCount]. *)
Definition call_params (messages : list Message) (user : option User)
  (retryCount : nat) : ChatParams :=
  {| model := selectedModel MODELS retryCount;
     history := convertToGeminiHistory
                  (JS.slice (trimChatHistory messages) 0 (Some (-1)%Z));
     config := {| systemInstruction := buildPersonalizedPrompt user;
                  maxOutputTokens := 8192;
                  temperature := (8 # 10)%Q |} |}.

(** The two SDK calls of one attempt that reaches the provider. *)
Definition attempt_calls (ai : GoogleGenAI) (p : ChatParams) (msg : string)
  : list Event :=
  [ chats_create ai p; chat_sendMessage {| client := ai; params := p |} msg ].

(** The client [getAI] hands out: the one that exists already, or a new
    one when the key is set (a non-empty string). *)
Definition the_client {Provider : Type} (w : World Provider)
  : option GoogleGenAI :=
  match _ai w with
  | Some ai => Some ai
  | None =>
      match GEMINI_API_KEY w with
      | Some key => if JS.truthy_string key then Some {| apiKey := key |} else None
      | None => None
      end
  end.

Definition client_ready {Provider : Type} (w : World Provider) : bool :=
  match the_client w with Some _ => true | None => false end.

(** The world once [_ai] holds the client. *)
Definition with_client {Provider : Type} (ai : GoogleGenAI) (w : World Provider)
  : World Provider :=
  {| GEMINI_API_KEY := GEMINI_API_KEY w; _ai := Some ai;
     provider := provider w; journal := journal w |}.

(** Projections of a journal. *)
Definition timeouts (evs : list Event) : list Z :=
  flat_map (fun e => match e with setTimeout d => [d] | _ => [] end) evs.

Definition sent (evs : list Event) : list (Chat * string) :=
  flat_map (fun e => match e with
                     | chat_sendMessage c m => [(c, m)]
                     | _ => []
                     end) evs.

Definition created (evs : list Event) : list ChatParams :=
  flat_map (fun e => match e with chats_create _ p => [p] | _ => [] end) evs.

(** The journal of one invocation started at attempt [r]: nothing when the
    provider is not reached; otherwise attempts that reach the provider,
    each but the last followed by its back-off. *)
Inductive run_trace (messages : list Message) (user : option User)
  : nat -> list Event -> Prop :=
| run_silent : forall r, run_trace messages user r []
| run_final : forall r ai l,
    last_entry (trimChatHistory messages) = Some l ->
    role l = "user" ->
    run_trace messages user r
      (attempt_calls ai (call_params messages user r) (content l))
| run_retry : forall r ai l evs,
    r < MAX_RETRIES ->
    last_entry (trimChatHistory messages) = Some l ->
    role l = "user" ->
    run_trace messages user (r + 1) evs ->
    run_trace messages user r
      (attempt_calls ai (call_params messages user r) (content l)
       ++ setTimeout (backoff_delay r) :: evs)%list.

(** The errors of the caller-facing taxonomy, as the code words them. *)
Definition InvalidHistory_empty : JsError :=
  Error "Failed to generate response: No messages to process".
Definition InvalidHistory_last : JsError :=
  Error "Failed to generate response: Last message must be from user".
Definition ConfigurationError : JsError :=
  Error "Invalid or missing Gemini API key. Please check your configuration.".
Definition ProviderBusy : JsError :=
  Error "AI service is currently busy. Please try again in a moment.".
Definition UnknownProviderError (raw : string) : JsError :=
  Error ("Failed to generate response: " ++ raw).

(** A message that is a string, or missing ([undefined] or [null]). *)
Definition string_or_missing (v : JsValue) : Prop :=
  match v with
  | JsForeign _ => False
  | _ => True
  end.

(** The patterns of the specific messages that come before the busy one. *)
Definition earlier_pattern (m : string) : bool :=
  JS.includes m "API key" || JS.includes m "API_KEY" || JS.includes m "quota" ||
  JS.includes m "safety" || JS.includes m "SAFETY" ||
  JS.includes m "not found" || JS.includes m "404".

(** A provider that plays a fixed list of answers, one per message.  Once
    the list is used up it keeps giving the last answer it was given. *)
Definition Script : Type := (list (string + JsError) * (string + JsError))%type.

Definition play (s : Script) (_ : Chat) (_ : string)
  : (string + JsError) * Script :=
  match fst s with
  | [] => (snd s, s)
  | a :: rest => (a, (rest, snd s))
  end.

(** The type of a provider's answers over a state [Provider]. *)
Definition Responder (Provider : Type) : Type :=
  Provider -> Chat -> string -> (string + JsError) * Provider.

(** Sample data: a configured and an unconfigured process, a user turn,
    two provider errors, and a history of 31 entries. *)
Definition configured (answers : Script) : World Script :=
  {| GEMINI_API_KEY := Some "test-key"; _ai := None;
     provider := answers; journal := [] |}.

Definition unconfigured (answers : Script) : World Script :=
  {| GEMINI_API_KEY := None; _ai := None; provider := answers; journal := [] |}.

Definition ask (question : string) : Message :=
  {| role := "user"; content := question |}.

Definition rate_limited : JsError :=
  {| message := "rate limit exceeded"; status := Some 429%Z; statusCode := None |}.

Definition overloaded : JsError :=
  {| message := "The model is overloaded. Please try again later.";
     status := Some 503%Z; statusCode := None |}.


(** A provider without state that always gives the same answer, and a
    configured process for it. *)
Definition constant (answer : string + JsError) : Responder unit :=
  fun _ _ _ => (answer, tt).

Definition configured_constant : World unit :=
  {| GEMINI_API_KEY := Some "test-key"; _ai := None;
     provider := tt; journal := [] |}.

(** The message [{ code: 500 }], an object, and an error that carries it. *)
Definition object_message : Foreign :=
  {| truthy := true;
     json := Some ("{" ++ JS.dq ++ "code" ++ JS.dq ++ ":500}");
     includes_method := None;
     template_text := "[object Object]" |}.

Definition object_error : JsError :=
  {| message := JsForeign object_message; status := None; statusCode := None |}.

Definition long_history : list Message :=
  {| role := "bot"; content := "oldest" |} :: repeat (ask "again") 30.

(** The journal of an invocation that reaches the provider at attempt [r]
    and is retried [k] times: a wait after each attempt but the last. *)
Definition invocation_events (ai : GoogleGenAI) (messages : list Message)
  (user : option User) (l : Message) (r k : nat) : list Event :=
  (flat_map (fun a => attempt_calls ai (call_params messages user a) (content l)
                      ++ [setTimeout (backoff_delay a)])
            (seq r k)
   ++ attempt_calls ai (call_params messages user (r + k)) (content l))%list.

(** The client an event of the journal goes through, if any. *)
Definition event_client (e : Event) : option GoogleGenAI :=
  match e with
  | chats_create ai _ => Some ai
  | chat_sendMessage chat _ => Some (client chat)
  | setTimeout _ => None
  end.

(** The messages [generateResponse] throws, but for the catch-all. *)
Definition specific_messages : list string :=
  [ "Invalid or missing Gemini API key. Please check your configuration.";
    "API quota exceeded. Please try again later.";
    "Response blocked due to safety settings. Please rephrase your question.";
    "Model not found. Please check the model name configuration.";
    "AI service is currently busy. Please try again in a moment." ].

(** ** [routes/chat.js]: the handler of [POST /api/chat/:id/message] *)

(** [String.prototype.length] and [slice] count UTF-16 code units.  The
    units of a (well-formed) UTF-8 string: [pending] and [more] hold a code
    point under construction and the number of continuation bytes it still
    lacks. *)
Definition utf16_units (cp : N) : list N :=
  if (cp <? 65536)%N then [cp]
  else [ (55296 + (cp - 65536) / 1024)%N; (56320 + (cp - 65536) mod 1024)%N ].

Fixpoint utf16_from (pending : N) (more : nat) (s : string) : list N :=
  match s with
  | EmptyString => []
  | String c rest =>
      let b := N_of_ascii c in
      match more with
      | O =>
          if (b <? 128)%N then b :: utf16_from 0 0 rest
          else if (b <? 224)%N then utf16_from (N.land b 31) 1 rest
          else if (b <? 240)%N then utf16_from (N.land b 15) 2 rest
          else utf16_from (N.land b 7) 3 rest
      | S O =>
          (utf16_units (pending * 64 + N.land b 63) ++ utf16_from 0 0 rest)%list
      | S more' => utf16_from (pending * 64 + N.land b 63)%N more' rest
      end
  end.

Definition utf16 (s : string) : list N := utf16_from 0 0 s.

(** [content.slice(0, 50) + (content.length > 50 ? '...' : '')], as code
    units (the cut may fall inside a surrogate pair). *)
Definition truncated_title (content : string) : list N :=
  (JS.slice (utf16 content) 0 (Some 50%Z)
   ++ (if (50 <? List.length (utf16 content))%nat then utf16 "..." else []))%list.

(** The [maxlength] of [title] in the chat schema. *)
Definition title_maxlength : nat := 100.

(** A chat document and a message document, with the fields the handler
    touches. *)
Record ChatDoc : Type :=
  { chat_id : string; userId : string; title : list N; updatedAt : Z }.

Record MessageDoc : Type := { chatId : string; stored : Message; timestamp : Z }.

(** The request after the [protect] middleware: [req.params.id],
    [req.user._id], [req.user] and [req.body.content]. *)
Record Request : Type :=
  { params_id : string; user_id : string; req_user : User;
    body_content : option string }.

(** The JSON bodies the handler sends. *)
Inductive Body : Type :=
| json_message (msg : JsValue)
| json_reply (userMessage botMessage : MessageDoc) (chatTitle : list N).

Record Response : Type := { res_status : Z; res_body : Body }.

(** The calls the handler makes to the database and the clock. *)
Inductive DbCall : Type :=
| Chat_findOne_call (id user : string)
| Message_create_call (chat : string) (msg : Message)
| Message_find_call (chat : string)
| chat_save_call (chat : ChatDoc)
| Date_now_call.

Section Handler.

Variable Provider : Type.
Variable respond : Provider -> Chat -> string -> (string + JsError) * Provider.

(** The database and the clock behind mongoose and [Date.now]: a state and
    the result (a value, or a thrown error) of each operation. *)
Variable Backend : Type.
Variable Chat_findOne :
  string -> string -> Backend -> (option ChatDoc + JsError) * Backend.
Variable Message_create :
  string -> Message -> Backend -> (MessageDoc + JsError) * Backend.
(** [Message.find({ chatId }).sort({ timestamp: 1 })] *)
Variable Message_find : string -> Backend -> (list MessageDoc + JsError) * Backend.
Variable chat_save : ChatDoc -> Backend -> (unit + JsError) * Backend.
Variable Date_now : Backend -> Z * Backend.

Record Server : Type :=
  { backend : Backend; world : World Provider; db_calls : list DbCall }.

Definition H (A : Type) : Type := Server -> (A + JsError) * Server.

Definition hret {A : Type} (a : A) : H A := fun s => (inl a, s).

Definition hbind {A B : Type} (m : H A) (k : A -> H B) : H B :=
  fun s =>
    match m s with
    | (inl a, s') => k a s'
    | (inr e, s') => (inr e, s')
    end.

Notation "x <~ m ;; k" := (hbind m (fun x => k))
  (at level 61, m at next level, right associativity).

(** A database operation, recorded. *)
Definition db {A : Type} (call : DbCall) (op : Backend -> (A + JsError) * Backend)
  : H A :=
  fun s =>
    let (result, b') := op (backend s) in
    (result, {| backend := b'; world := world s;
                db_calls := (db_calls s ++ [call])%list |}).

(** [Date.now()] *)
Definition now : H Z :=
  db Date_now_call (fun b => let (t, b') := Date_now b in (inl t, b')).

(** [await generateResponse(existingMessages, req.user)] *)
Definition generate (messages : list Message) (user : option User) : H string :=
  fun s =>
    let (result, w') := generateResponse respond messages user 0 (world s) in
    (result, {| backend := backend s; world := w'; db_calls := db_calls s |}).

(** The [try] block of the handler; an early [return res...] is a result. *)
Definition postMessage_try (req : Request) : H Response :=
  chat <~ db (Chat_findOne_call (params_id req) (user_id req))
             (Chat_findOne (params_id req) (user_id req)) ;;
  match chat with
  | None => hret {| res_status := 404; res_body := json_message "Chat not found" |}
  | Some chat =>
      match body_content req with
      | None =>
          hret {| res_status := 400;
                  res_body := json_message "Message content is required" |}
      | Some content =>
          if negb (JS.truthy_string content) then
            hret {| res_status := 400;
                    res_body := json_message "Message content is required" |}
          else
            userMessage <~
              db (Message_create_call (chat_id chat)
                    {| role := "user"; content := content |})
                 (Message_create (chat_id chat)
                    {| role := "user"; content := content |}) ;;
            existingMessages <~
              db (Message_find_call (chat_id chat)) (Message_find (chat_id chat)) ;;
            aiResponse <~
              generate (map stored existingMessages) (Some (req_user req)) ;;
            botMessage <~
              db (Message_create_call (chat_id chat)
                    {| role := "bot"; content := aiResponse |})
                 (Message_create (chat_id chat)
                    {| role := "bot"; content := aiResponse |}) ;;
            chat <~
              (if (List.length existingMessages <=? 1)%nat then
                 let title := truncated_title content in
                 let chat := {| chat_id := chat_id chat; userId := userId chat;
                                title := title; updatedAt := updatedAt chat |} in
                 _ <~ db (chat_save_call chat) (chat_save chat) ;;
                 hret chat
               else
                 t <~ now ;;
                 let chat := {| chat_id := chat_id chat; userId := userId chat;
                                title := title chat; updatedAt := t |} in
                 _ <~ db (chat_save_call chat) (chat_save chat) ;;
                 hret chat) ;;
            hret {| res_status := 200;
                    res_body := json_reply userMessage botMessage (title chat) |}
      end
  end.

(** The handler: the [try] block, and in the [catch] block the answer
    [500] with [error.message || 'Server error']. *)
Definition postMessage (req : Request) (s : Server) : Response * Server :=
  match postMessage_try req s with
  | (inl res, s') => (res, s')
  | (inr error, s') =>
      ({| res_status := 500;
          res_body := json_message (if truthy_value (message error)
                                    then message error else "Server error") |},
       s')
  end.

End Handler.

Arguments backend {Provider Backend} s.
Arguments world {Provider Backend} s.
Arguments db_calls {Provider Backend} s.
Arguments Build_Server {Provider Backend}.
Arguments postMessage_try {Provider} respond {Backend}
  Chat_findOne Message_create Message_find chat_save Date_now req s.
Arguments postMessage {Provider} respond {Backend}
  Chat_findOne Message_create Message_find chat_save Date_now req s.

(** An in-memory backend for examples: chats, messages in insertion order
    and a clock that advances at each reading. *)
Record Memory : Type :=
  { chats : list ChatDoc; messages : list MessageDoc; clock : Z }.

Definition mem_findOne (id user : string) (b : Memory)
  : (option ChatDoc + JsError) * Memory :=
  (inl (find (fun c => (chat_id c =? id)%string && (userId c =? user)%string)
             (chats b)), b).

Definition mem_create (chat : string) (msg : Message) (b : Memory)
  : (MessageDoc + JsError) * Memory :=
  let doc := {| chatId := chat; stored := msg; timestamp := clock b |} in
  (inl doc, {| chats := chats b; messages := (messages b ++ [doc])%list;
               clock := (clock b + 1)%Z |}).

Definition mem_find (chat : string) (b : Memory)
  : (list MessageDoc + JsError) * Memory :=
  (inl (filter (fun d => (chatId d =? chat)%string) (messages b)), b).

Definition mem_save (chat : ChatDoc) (b : Memory) : (unit + JsError) * Memory :=
  (inl tt,
   {| chats := map (fun c => if (chat_id c =? chat_id chat)%string then chat else c)
                   (chats b);
      messages := messages b; clock := clock b |}).

Definition mem_now (b : Memory) : Z * Memory :=
  (clock b, {| chats := chats b; messages := messages b; clock := (clock b + 1)%Z |}).

Definition mem_postMessage (req : Request) (s : Server Script Memory)
  : Response * Server Script Memory :=
  postMessage play mem_findOne mem_create mem_find mem_save mem_now req s.

Definition sample_chat : ChatDoc :=
  {| chat_id := "c1"; userId := "u1"; title := utf16 "New Chat"; updatedAt := 0 |}.

Definition sample_server (w : World Script) : Server Script Memory :=
  {| backend := {| chats := [sample_chat]; messages := []; clock := 1 |};
     world := w; db_calls := [] |}.

Definition sample_request (content : option string) : Request :=
  {| params_id := "c1"; user_id := "u1";
     req_user := {| interests := Some []; persona := Some "" |};
     body_content := content |}.

(** Strings made of ASCII white space only (tab, line feed, vertical tab,
    form feed, carriage return, space). *)
Definition ascii_space (c : ascii) : bool :=
  let n := nat_of_ascii c in
  ((n =? 9) || (n =? 10) || (n =? 11) || (n =? 12) || (n =? 13) || (n =? 32))%nat.

Fixpoint only_spaces (s : string) : bool :=
  match s with
  | EmptyString => true
  | String c rest => ascii_space c && only_spaces rest
  end.

(** ** Properties of the JavaScript primitives *)

Lemma prefix_iff (p s : string) :
  String.prefix p s = true <-> exists t, s = p ++ t.
Proof.
  revert s. induction p as [| c p IH]; intros [| d s]; simpl.
  - split; [ intros _; now exists "" | reflexivity ].
  - split; [ intros _; now exists (String d s) | reflexivity ].
  - split; [ discriminate | intros [t Ht]; discriminate ].
  - destruct (ascii_dec c d) as [-> | Hne].
    + rewrite IH. split; intros [t Ht]; exists t; [ now subst | now injection Ht ].
    + split; [ discriminate | intros [t Ht]; simpl in Ht; congruence ].
Qed.

Lemma includes_iff (s pat : string) :
  JS.includes s pat = true <-> exists a b, s = a ++ pat ++ b.
Proof.
  induction s as [| c s IH]; cbn [JS.includes].
  - rewrite orb_false_r, prefix_iff. split.
    + intros [t Ht]. now exists "", t.
    + intros [a [b Hab]]. destruct a; [ now exists b | discriminate ].
  - rewrite orb_true_iff, prefix_iff, IH. split.
    + intros [[t Ht] | [a [b Hab]]].
      * now exists "", t.
      * exists (String c a), b. simpl. now rewrite Hab.
    + intros [a [b Hab]]. destruct a as [| d a]; simpl in Hab.
      * left. now exists b.
      * right. injection Hab as _ Hs. now exists a, b.
Qed.

Lemma strip_ws_shorter (s rest : string) :
  JS.strip_ws s = Some rest -> String.length rest < String.length s.
Proof.
  unfold JS.strip_ws. intros H.
  repeat match type of H with
         | match ?x with _ => _ end = _ => destruct x; simpl in *
         | (if ?b then _ else _) = _ => destruct b
         end;
    try discriminate; injection H as <-; simpl; lia.
Qed.

(** [trimStart] leaves no white space in front. *)
Lemma trimStart_done (s : string) : JS.strip_ws (JS.trimStart s) = None.
Proof.
  unfold JS.trimStart.
  assert (H : forall n s, String.length s <= n ->
                          JS.strip_ws (JS.trimStart_fuel n s) = None).
  { induction n as [| n IH]; intros t Hn.
    - destruct t; [ reflexivity | simpl in Hn; lia ].
    - cbn [JS.trimStart_fuel]. destruct (JS.strip_ws t) as [rest |] eqn:Hr.
      + apply IH. apply strip_ws_shorter in Hr. lia.
      + exact Hr. }
  now apply H.
Qed.

Lemma slice_last (A : Type) (l : list A) (n : nat) :
  0 < n -> n <= List.length l ->
  JS.slice l (- Z.of_nat n) None = skipn (List.length l - n) l.
Proof.
  intros Hpos Hle. unfold JS.slice.
  destruct (Z.ltb_spec (- Z.of_nat n) 0) as [_ | H]; [| lia].
  destruct (Z.ltb_spec (Z.of_nat (List.length l)) 0) as [H | _]; [lia |].
  rewrite Z.min_id, Z.max_l by lia.
  replace (Z.to_nat (Z.of_nat (List.length l) + - Z.of_nat n))
    with (List.length l - n) by lia.
  apply firstn_all2. rewrite length_skipn. lia.
Qed.

Lemma slice_init (A : Type) (l : list A) :
  JS.slice l 0 (Some (-1)%Z) = removelast l.
Proof.
  unfold JS.slice. cbn -[Z.of_nat Z.max Z.min Z.to_nat Z.sub Z.add].
  rewrite Z.min_l by lia. rewrite skipn_O, Z.sub_0_r.
  rewrite removelast_firstn_len. f_equal. lia.
Qed.

Lemma index_last (A : Type) (l : list A) :
  JS.index l (Z.of_nat (List.length l) - 1) = last_entry l.
Proof.
  unfold JS.index, last_entry. destruct l as [| a l]; [ reflexivity |].
  destruct (Z.ltb_spec (Z.of_nat (List.length (a :: l)) - 1) 0) as [H | _].
  - simpl List.length in H. lia.
  - f_equal. lia.
Qed.

Lemma last_entry_app (A : Type) (l : list A) (a : A) :
  last_entry (l ++ [a])%list = Some a.
Proof.
  unfold last_entry. rewrite length_app. simpl.
  replace (List.length l + 1 - 1) with (List.length l) by lia.
  rewrite nth_error_app2 by lia. now rewrite Nat.sub_diag.
Qed.

(** ** Properties of the history window *)

Lemma trimChatHistory_window (messages : list Message) :
  trimChatHistory messages = window messages.
Proof.
  unfold trimChatHistory, window.
  destruct (Nat.leb_spec (List.length messages) MAX_HISTORY_MESSAGES) as [H | H].
  - replace (List.length messages - MAX_HISTORY_MESSAGES) with 0 by lia.
    reflexivity.
  - apply slice_last; unfold MAX_HISTORY_MESSAGES in *; lia.
Qed.

Lemma window_length (messages : list Message) :
  List.length (window messages) = Nat.min (List.length messages) MAX_HISTORY_MESSAGES.
Proof. unfold window. rewrite length_skipn. lia. Qed.

Lemma window_short (messages : list Message) :
  List.length messages <= MAX_HISTORY_MESSAGES -> window messages = messages.
Proof.
  intros H. unfold window.
  now replace (List.length messages - MAX_HISTORY_MESSAGES) with 0 by lia.
Qed.

Lemma window_split (messages : list Message) :
  messages =
  (firstn (List.length messages - MAX_HISTORY_MESSAGES) messages
   ++ window messages)%list.
Proof. unfold window. now rewrite firstn_skipn. Qed.

Lemma window_app (older recent : list Message) :
  List.length recent = MAX_HISTORY_MESSAGES ->
  window (older ++ recent) = recent.
Proof.
  intros H. unfold window. rewrite length_app, H.
  replace (List.length older + MAX_HISTORY_MESSAGES - MAX_HISTORY_MESSAGES)
    with (List.length older) by lia.
  rewrite skipn_app, Nat.sub_diag, skipn_all. reflexivity.
Qed.

Lemma window_last_entry (messages : list Message) :
  last_entry (window messages) = last_entry messages.
Proof.
  destruct (Nat.le_gt_cases (List.length messages) MAX_HISTORY_MESSAGES) as [H | H].
  - now rewrite window_short.
  - unfold last_entry. rewrite window_length. unfold window.
    rewrite nth_error_skipn. f_equal. unfold MAX_HISTORY_MESSAGES in *. lia.
Qed.

(** ** One attempt *)

Section Attempt.

Context {Provider : Type}.
Variable respond : Provider -> Chat -> string -> (string + JsError) * Provider.

Lemma getAI_spec (w : World Provider) :
  getAI w =
  match the_client w with
  | Some ai => (inl ai, with_client ai w)
  | None => (inr (Error "GEMINI_API_KEY environment variable is not set"), w)
  end.
Proof.
  destruct w as [key ai p j]. unfold getAI, the_client, with_client. simpl.
  destruct ai as [ai |]; [ reflexivity |].
  destruct key as [key |]; [| reflexivity ].
  destruct (JS.truthy_string key); reflexivity.
Qed.

(** The [try] block, case by case. *)
Lemma generateResponse_try_spec (m : list Message) (u : option User) (r : nat)
  (w : World Provider) :
  generateResponse_try respond m u r w =
  match the_client w with
  | None => (inr (Error "GEMINI_API_KEY environment variable is not set"), w)
  | Some ai =>
      match last_entry (trimChatHistory m) with
      | None => (inr (Error "No messages to process"), with_client ai w)
      | Some l =>
          if (role l =? "user")%string then
            let p := call_params m u r in
            let (answer, p') :=
              respond (provider w) {| client := ai; params := p |} (content l) in
            (answer,
             {| GEMINI_API_KEY := GEMINI_API_KEY w; _ai := Some ai; provider := p';
                journal := (journal w ++ attempt_calls ai p (content l))%list |})
          else (inr (Error "Last message must be from user"), with_client ai w)
      end
  end.
Proof.
  unfold generateResponse_try, bind. rewrite getAI_spec.
  destruct (the_client w) as [ai |]; [| reflexivity ].
  rewrite index_last.
  destruct (trimChatHistory m) as [| a t] eqn:Ht; [ reflexivity |].
  change (List.length (a :: t) =? 0)%nat with false. cbv iota.
  destruct (last_entry (a :: t)) as [l |] eqn:Hl.
  - destruct (role l =? "user")%string; [| reflexivity ].
    unfold create, sendMessage, ret, record, with_client, call_params. simpl.
    rewrite Ht.
    destruct (respond _ _ _) as [[answer | e] p'];
      unfold attempt_calls; rewrite <- app_assoc; reflexivity.
  - unfold last_entry in Hl. apply nth_error_None in Hl. simpl in Hl. lia.
Qed.

(** The recursive equation of [generateResponse], as the source reads. *)
Lemma generateResponse_step (m : list Message) (u : option User) (r : nat)
  (w : World Provider) :
  generateResponse respond m u r w =
  match generateResponse_try respond m u r w with
  | (inl response, w1) => (inl response, w1)
  | (inr error, w1) =>
      if isRetryable error && (r <? MAX_RETRIES)%nat
      then generateResponse respond m u (r + 1) (sleep (backoff_delay r) w1)
      else (inr (specific_error error), w1)
  end.
Proof.
  simp generateResponse.
  destruct (generateResponse_try respond m u r w) as [[response | error] w1];
    [ reflexivity |].
  unfold generateResponse_unfold_clause_1, generateResponse_unfold_clause_1_clause_2.
  destruct (Nat.ltb_spec r MAX_RETRIES) as [Hlt | Hge];
    destruct (isRetryable error); destruct (lt_dec r MAX_RETRIES);
    try reflexivity; lia.
Qed.

(** What one invocation adds to the journal. *)
Lemma generateResponse_run (m : list Message) (u : option User) :
  forall (n r : nat) (w : World Provider),
    MAX_RETRIES - r <= n ->
    exists evs,
      journal (snd (generateResponse respond m u r w)) = (journal w ++ evs)%list /\
      run_trace m u r evs.
Proof.
  assert (Hstep : forall r (w : World Provider),
             (forall w2, r < MAX_RETRIES ->
                exists evs,
                  journal (snd (generateResponse respond m u (r + 1) w2))
                  = (journal w2 ++ evs)%list /\ run_trace m u (r + 1) evs) ->
             exists evs,
               journal (snd (generateResponse respond m u r w))
               = (journal w ++ evs)%list /\ run_trace m u r evs).
  { intros r w IH.
    rewrite generateResponse_step, generateResponse_try_spec.
    destruct (the_client w) as [ai |];
      [| exists []; rewrite app_nil_r; split; [ reflexivity | constructor ] ].
    destruct (last_entry (trimChatHistory m)) as [l |] eqn:Hl;
      [| exists []; rewrite app_nil_r; split; [ reflexivity | constructor ] ].
    destruct (String.eqb_spec (role l) "user") as [Hu | Hu];
      [| exists []; rewrite app_nil_r; split; [ reflexivity | constructor ] ].
    cbv zeta. destruct (respond _ _ _) as [[answer | e] p'];
      [ eexists; split; [ reflexivity | now apply run_final ] |].
    destruct (isRetryable e && (r <? MAX_RETRIES)%nat) eqn:Hretry;
      [| eexists; split; [ reflexivity | now apply run_final ] ].
    apply andb_true_iff in Hretry. destruct Hretry as [_ Hlt].
    apply Nat.ltb_lt in Hlt.
    match goal with
    | |- context [generateResponse respond m u (r + 1) ?w2] =>
        destruct (IH w2 Hlt) as [evs [Hj Ht]]
    end.
    exists (attempt_calls ai (call_params m u r) (content l)
            ++ setTimeout (backoff_delay r) :: evs)%list.
    split; [| now apply run_retry ].
    rewrite Hj. unfold sleep, record. simpl.
    now rewrite <- !app_assoc. }
  induction n as [| n IH]; intros r w Hn; apply Hstep; intros w2 Hlt.
  - lia.
  - apply IH. lia.
Qed.

End Attempt.

(** ** Consequences of the shape of the journal *)

Lemma timeouts_app (a b : list Event) :
  timeouts (a ++ b) = (timeouts a ++ timeouts b)%list.
Proof. unfold timeouts. apply flat_map_app. Qed.

Lemma sent_app (a b : list Event) : sent (a ++ b) = (sent a ++ sent b)%list.
Proof. unfold sent. apply flat_map_app. Qed.

Lemma created_app (a b : list Event) :
  created (a ++ b) = (created a ++ created b)%list.
Proof. unfold created. apply flat_map_app. Qed.

(** The waits are the back-off delays of consecutive attempts, at most one
    per remaining retry, and each wait is preceded by one message sent. *)
Lemma run_trace_retries (m : list Message) (u : option User) (r : nat)
  (evs : list Event) :
  run_trace m u r evs ->
  exists k,
    k <= MAX_RETRIES - r /\
    timeouts evs = map backoff_delay (seq r k) /\
    List.length (sent evs) <= k + 1 /\
    List.length (created evs) = List.length (sent evs).
Proof.
  induction 1 as [r | r ai l Hl Hu | r ai l evs Hlt Hl Hu Hrun IH].
  - exists 0. simpl. repeat split; lia.
  - exists 0. simpl. repeat split; lia.
  - destruct IH as [k [Hk [Ht [Hs Hc]]]]. exists (S k).
    rewrite timeouts_app, sent_app, created_app.
    change (setTimeout (backoff_delay r) :: evs)
      with ([setTimeout (backoff_delay r)] ++ evs)%list.
    rewrite timeouts_app, sent_app, created_app, Ht.
    replace (r + 1) with (S r) by lia.
    unfold MAX_RETRIES in *. rewrite !length_app.
    split; [ lia |]. split; [ reflexivity |]. cbn [List.length sent created
      attempt_calls flat_map app]. lia.
Qed.

(** Every chat session is created with the parameters of some attempt, and
    every message sent is the content of the last windowed entry, a user
    entry, on such a session. *)
Lemma run_trace_calls (m : list Message) (u : option User) (r : nat)
  (evs : list Event) :
  run_trace m u r evs ->
  Forall (fun p => exists a, r <= a <= Nat.max r MAX_RETRIES /\ p = call_params m u a)
         (created evs) /\
  Forall (fun cm =>
            (exists a, r <= a <= Nat.max r MAX_RETRIES /\
                       params (fst cm) = call_params m u a) /\
            exists l, last_entry (trimChatHistory m) = Some l /\
                      role l = "user" /\ snd cm = content l)
         (sent evs).
Proof.
  induction 1 as [r | r ai l Hl Hu | r ai l evs Hlt Hl Hu Hrun IH].
  - split; constructor.
  - split; (constructor; [| constructor ]).
    + exists r. split; [ lia | reflexivity ].
    + split; [ exists r; split; [ lia | reflexivity ] | now exists l ].
  - destruct IH as [IHc IHs].
    assert (Hmax : Nat.max r MAX_RETRIES = Nat.max (r + 1) MAX_RETRIES) by lia.
    rewrite created_app, sent_app.
    change (setTimeout (backoff_delay r) :: evs)
      with ([setTimeout (backoff_delay r)] ++ evs)%list.
    rewrite created_app, sent_app. simpl. split.
    + constructor; [ exists r; split; [ lia | reflexivity ] |].
      eapply Forall_impl; [| exact IHc ].
      intros p [a [Ha Hp]]. exists a. split; [ lia | exact Hp ].
    + constructor;
        [ split; [ exists r; split; [ lia | reflexivity ] | now exists l ] |].
      eapply Forall_impl; [| exact IHs ].
      intros cm [[a [Ha Hp]] Hlast]. split; [| exact Hlast ].
      exists a. split; [ lia | exact Hp ].
Qed.

Section Runs.

Context {Provider : Type}.
Variable respond : Provider -> Chat -> string -> (string + JsError) * Provider.

(** Histories with the same window are indistinguishable. *)
Lemma generateResponse_try_ext (m m' : list Message) (u : option User)
  (r : nat) (w : World Provider) :
  trimChatHistory m = trimChatHistory m' ->
  generateResponse_try respond m u r w = generateResponse_try respond m' u r w.
Proof.
  intros H. rewrite !generateResponse_try_spec. unfold call_params.
  now rewrite H.
Qed.

Lemma generateResponse_ext (m m' : list Message) (u : option User) :
  trimChatHistory m = trimChatHistory m' ->
  forall (n r : nat) (w : World Provider),
    MAX_RETRIES - r <= n ->
    generateResponse respond m u r w = generateResponse respond m' u r w.
Proof.
  intros H. induction n as [| n IH]; intros r w Hn;
    rewrite (generateResponse_step respond m), (generateResponse_step respond m'),
      (generateResponse_try_ext m m' u r w H);
    destruct (generateResponse_try respond m' u r w) as [[t | e] w1];
    try reflexivity;
    destruct (Nat.ltb_spec r MAX_RETRIES) as [Hlt | Hge];
    rewrite ?andb_false_r; try reflexivity; try lia.
  destruct (isRetryable e); [| reflexivity ]. apply IH. lia.
Qed.

(** An attempt that does not reach the provider ends the invocation. *)
Lemma generateResponse_stops (m : list Message) (u : option User) (r : nat)
  (w w1 : World Provider) (e : JsError) :
  generateResponse_try respond m u r w = (inr e, w1) ->
  isRetryable e && (r <? MAX_RETRIES)%nat = false ->
  generateResponse respond m u r w = (inr (specific_error e), w1).
Proof.
  intros Htry Hno. now rewrite generateResponse_step, Htry, Hno.
Qed.

End Runs.

(** ** The history window: [trimChatHistory] *)

(** C10: a message list of at most 30 entries is returned unchanged by
    [trimChatHistory]; hence trimming twice is the same as trimming once,
    and the output never has more than 30 entries. *)
Theorem trimChatHistory_idempotent :
  (forall xs, List.length xs <= 30 -> trimChatHistory xs = xs) /\
  (forall xs, trimChatHistory (trimChatHistory xs) = trimChatHistory xs) /\
  (forall xs, List.length (trimChatHistory xs) <= 30).
Proof.
  assert (Hshort : forall xs, List.length xs <= 30 -> trimChatHistory xs = xs).
  { intros xs H. rewrite trimChatHistory_window. now apply window_short. }
  assert (Hlen : forall xs, List.length (trimChatHistory xs) <= 30).
  { intros xs. rewrite trimChatHistory_window, window_length.
    unfold MAX_HISTORY_MESSAGES. lia. }
  split; [ exact Hshort |]. split; [| exact Hlen ].
  intros xs. apply Hshort, Hlen.
Qed.

Lemma trimChatHistory_idempotent_witness :
  List.length [ {| role := "user"; content := "What is a stack?" |} ] <= 30 /\
  trimChatHistory [ {| role := "user"; content := "What is a stack?" |} ]
  = [ {| role := "user"; content := "What is a stack?" |} ].
Proof.
  split; [ simpl; lia |].
  apply (proj1 trimChatHistory_idempotent). simpl. lia.
Defined.

(** ** The conversion to the provider's turns: [convertToGeminiHistory] *)

Lemma convertToGeminiHistory_length (messages : list Message) :
  List.length (convertToGeminiHistory messages) = List.length messages.
Proof. unfold convertToGeminiHistory. apply length_map. Qed.

Lemma convertToGeminiHistory_nth (messages : list Message) (i : nat) (msg : Message) :
  nth_error messages i = Some msg ->
  nth_error (convertToGeminiHistory messages) i
  = Some {| c_role := if (role msg =? "user")%string then "user" else "model";
            parts := [ {| text := content msg |} ] |}.
Proof.
  intros H. unfold convertToGeminiHistory. rewrite nth_error_map, H. reflexivity.
Qed.

(** C9: [convertToGeminiHistory] gives the provider role "model" to every
    message whose role is not exactly "user" -- the stored role "bot" among
    them -- and it is defined on every list of messages, whatever their
    roles: one turn per message, in order, with the content as its text. *)
Theorem convertToGeminiHistory_total (messages : list Message) :
  List.length (convertToGeminiHistory messages) = List.length messages /\
  (forall i msg,
      nth_error messages i = Some msg ->
      exists turn,
        nth_error (convertToGeminiHistory messages) i = Some turn /\
        parts turn = [ {| text := content msg |} ] /\
        (role msg <> "user" -> c_role turn = "model") /\
        (role msg = "bot" -> c_role turn = "model") /\
        (role msg = "user" -> c_role turn = "user")) /\
  In "bot" Message_role_enum.
Proof.
  split; [ apply convertToGeminiHistory_length |].
  split; [| simpl; auto ].
  intros i msg H. eexists.
  split; [ apply convertToGeminiHistory_nth; exact H |].
  simpl. split; [ reflexivity |].
  destruct (String.eqb_spec (role msg) "user") as [Hu | Hu].
  - repeat split; intros H'; congruence.
  - repeat split; intros H'; congruence.
Qed.

Lemma convertToGeminiHistory_total_witness :
  exists turn,
    nth_error (convertToGeminiHistory
                 [ {| role := "user"; content := "What is a stack?" |};
                   {| role := "bot"; content := "A LIFO structure." |} ]) 1
    = Some turn /\
    c_role turn = "model" /\ parts turn = [ {| text := "A LIFO structure." |} ].
Proof.
  destruct (proj1 (proj2 (convertToGeminiHistory_total
              [ {| role := "user"; content := "What is a stack?" |};
                {| role := "bot"; content := "A LIFO structure." |} ]))
              1 {| role := "bot"; content := "A LIFO structure." |} eq_refl)
    as [turn [Hn [Hp [_ [Hb _]]]]].
  exists turn. split; [ exact Hn |]. split; [ exact (Hb eq_refl) | exact Hp ].
Defined.

(** ** Prompt assembly: [buildPersonalizedPrompt] *)

Lemma string_app_assoc (a b c : string) : (a ++ b) ++ c = a ++ (b ++ c).
Proof. induction a as [| x a IH]; simpl; [ reflexivity | now rewrite IH ]. Qed.

Example trim_example :
  JS.trim (" " ++ JS.nl ++ "Be terse. " ++ JS.nl) = "Be terse.".
Proof. reflexivity. Qed.

Example trim_blank : JS.trim (" " ++ JS.nl ++ "  ") = "".
Proof. reflexivity. Qed.

(** C7: with no profile [buildPersonalizedPrompt] returns the base system
    prompt and nothing else; with interests that are not empty and a persona
    that is not blank it returns the base text, then the interests clause
    with the tags joined by ", " in their order, then the persona clause
    with the persona text as given. *)
Theorem buildPersonalizedPrompt_order :
  buildPersonalizedPrompt None = SYSTEM_PROMPT /\
  (forall tags p,
      tags <> [] -> JS.trim p <> "" ->
      buildPersonalizedPrompt (Some {| interests := Some tags; persona := Some p |})
      = SYSTEM_PROMPT
        ++ (JS.nl ++ JS.nl ++ "# USER'S INTERESTS:" ++ JS.nl
            ++ "This user is particularly interested in: "
            ++ String.concat ", " tags
            ++ ". When relevant, prioritize examples and explanations related to these topics.")
        ++ (JS.nl ++ JS.nl ++ "# USER'S CUSTOM INSTRUCTIONS:" ++ JS.nl ++ p)).
Proof.
  split; [ reflexivity |].
  intros tags p Htags Hp. unfold buildPersonalizedPrompt, has_interests, has_persona.
  cbn [interests persona].
  destruct tags as [| t tags]; [ congruence |].
  change (0 <? List.length (t :: tags))%nat with true. cbv iota.
  destruct (JS.trim p) eqn:Ht; [ congruence |].
  cbn [JS.truthy_string]. unfold interests_clause, persona_clause, JS.join.
  rewrite !string_app_assoc. reflexivity.
Qed.

Lemma buildPersonalizedPrompt_order_witness :
  buildPersonalizedPrompt
    (Some {| interests := Some ["graphs"; "OS"]; persona := Some "Be terse." |})
  = SYSTEM_PROMPT
    ++ (JS.nl ++ JS.nl ++ "# USER'S INTERESTS:" ++ JS.nl
        ++ "This user is particularly interested in: "
        ++ "graphs, OS"
        ++ ". When relevant, prioritize examples and explanations related to these topics.")
    ++ (JS.nl ++ JS.nl ++ "# USER'S CUSTOM INSTRUCTIONS:" ++ JS.nl ++ "Be terse.").
Proof.
  apply (proj2 buildPersonalizedPrompt_order ["graphs"; "OS"] "Be terse.").
  - discriminate.
  - vm_compute. discriminate.
Defined.

(** ** The calls of one invocation *)

Lemma call_params_history (m : list Message) (u : option User) (a : nat) :
  history (call_params m u a)
  = convertToGeminiHistory (removelast (trimChatHistory m)).
Proof. unfold call_params. simpl. now rewrite slice_init. Qed.

Lemma backoff_delays (k : nat) :
  k <= 3 -> map backoff_delay (seq 0 k) = firstn k [1000; 2000; 4000]%Z.
Proof.
  intros H. destruct k as [| [| [| [| k]]]]; try reflexivity. lia.
Qed.

Section Calls.

Context {Provider : Type}.
Variable respond : Provider -> Chat -> string -> (string + JsError) * Provider.

(** Every session is created with the converted window but its last entry
    as prior turns, and every message sent is the content of that last
    entry. *)
Lemma generateResponse_calls (m : list Message) (u : option User) (r : nat)
  (w : World Provider) :
  exists evs,
    journal (snd (generateResponse respond m u r w)) = (journal w ++ evs)%list /\
    run_trace m u r evs /\
    Forall (fun p => history p
                     = convertToGeminiHistory (removelast (trimChatHistory m)))
           (created evs) /\
    Forall (fun cm =>
              history (params (fst cm))
              = convertToGeminiHistory (removelast (trimChatHistory m)) /\
              exists l, last_entry (trimChatHistory m) = Some l /\
                        role l = "user" /\ snd cm = content l)
           (sent evs).
Proof.
  destruct (generateResponse_run respond m u (MAX_RETRIES - r) r w (le_n _))
    as [evs [Hj Hrun]].
  exists evs. split; [ exact Hj |]. split; [ exact Hrun |].
  destruct (run_trace_calls m u r evs Hrun) as [Hc Hs]. split.
  - eapply Forall_impl; [| exact Hc ].
    intros p [a [_ ->]]. apply call_params_history.
  - eapply Forall_impl; [| exact Hs ].
    intros cm [[a [_ Hp]] Hl]. split; [| exact Hl ].
    rewrite Hp. apply call_params_history.
Qed.

(** With a client and a history that ends with a user entry, the first
    attempt reaches the provider. *)
Lemma generateResponse_reaches (m : list Message) (u : option User) (r : nat)
  (w : World Provider) (l : Message) :
  client_ready w = true ->
  last_entry (trimChatHistory m) = Some l ->
  role l = "user" ->
  exists ai rest,
    the_client w = Some ai /\
    journal (snd (generateResponse respond m u r w))
    = (journal w ++ attempt_calls ai (call_params m u r) (content l) ++ rest)%list.
Proof.
  intros Hready Hl Hu. unfold client_ready in Hready.
  destruct (the_client w) as [ai |] eqn:Hai; [| discriminate ].
  exists ai. rewrite generateResponse_step, generateResponse_try_spec, Hai, Hl, Hu.
  rewrite String.eqb_refl. cbv zeta.
  destruct (respond _ _ _) as [[answer | e] p'];
    [ exists []; split; [ reflexivity | now rewrite app_nil_r ] |].
  destruct (isRetryable e && (r <? MAX_RETRIES)%nat);
    [| exists []; split; [ reflexivity | now rewrite app_nil_r ] ].
  match goal with
  | |- context [generateResponse respond m u (r + 1) ?w2] =>
      destruct (generateResponse_run respond m u (MAX_RETRIES - (r + 1))
                  (r + 1) w2 (le_n _)) as [evs [Hj _]]
  end.
  exists (setTimeout (backoff_delay r) :: evs). split; [ reflexivity |].
  rewrite Hj. unfold sleep, record. simpl. now rewrite <- !app_assoc.
Qed.

(** With an empty history, or one that does not end with a user entry, the
    invocation stops in its first [try] block. *)
Lemma generateResponse_rejects (m : list Message) (u : option User) (r : nat)
  (w : World Provider) :
  (m = [] \/ exists l, last_entry m = Some l /\ role l <> "user") ->
  generateResponse respond m u r w =
  match the_client w with
  | None => (inr ConfigurationError, w)
  | Some ai =>
      (inr (match m with
            | [] => InvalidHistory_empty
            | _ :: _ => InvalidHistory_last
            end), with_client ai w)
  end.
Proof.
  intros Hbad. rewrite generateResponse_step, generateResponse_try_spec.
  destruct (the_client w) as [ai |]; [| reflexivity ].
  rewrite trimChatHistory_window, window_last_entry.
  destruct Hbad as [-> | [l [Hl Hu]]]; [ reflexivity |].
  rewrite Hl. apply String.eqb_neq in Hu. rewrite Hu.
  destruct m as [| a m]; [ discriminate | reflexivity ].
Qed.

End Calls.

(** ** The window in the provider call *)

(** C1: a history of more than 30 entries reaches the provider through its
    last 30 entries only, in their order: the invocation is the same as on
    those 30 entries alone, every chat session is created with the
    conversion of the first 29 of them as prior turns and every message
    sent is the content of the 30th.  A history of at most 30 entries is
    used whole. *)
Theorem generateResponse_windowing {Provider : Type} (respond : Responder Provider)
  (m : list Message) (u : option User) (r : nat) (w : World Provider) :
  (List.length m <= 30 -> window m = m) /\
  (30 < List.length m ->
   List.length (window m) = 30 /\
   m = (firstn (List.length m - 30) m ++ window m)%list) /\
  generateResponse respond m u r w = generateResponse respond (window m) u r w /\
  exists evs,
    journal (snd (generateResponse respond m u r w)) = (journal w ++ evs)%list /\
    Forall (fun p => history p = convertToGeminiHistory (removelast (window m)))
           (created evs) /\
    Forall (fun cm =>
              history (params (fst cm))
              = convertToGeminiHistory (removelast (window m)) /\
              exists l, last_entry (window m) = Some l /\ snd cm = content l)
           (sent evs) /\
    (client_ready w = true ->
     (exists l, last_entry m = Some l /\ role l = "user") ->
     created evs <> [] /\ sent evs <> []).
Proof.
  split; [ apply window_short |].
  split.
  { intros H. split; [| apply window_split ].
    rewrite window_length. unfold MAX_HISTORY_MESSAGES. lia. }
  split.
  { apply (generateResponse_ext respond m (window m) u) with (n := MAX_RETRIES - r);
      [| lia ].
    rewrite !trimChatHistory_window. symmetry. apply window_short.
    rewrite window_length. lia. }
  destruct (generateResponse_calls respond m u r w) as [evs [Hj [_ [Hc Hs]]]].
  rewrite trimChatHistory_window in Hc, Hs.
  exists evs. split; [ exact Hj |]. split; [ exact Hc |]. split.
  - eapply Forall_impl; [| exact Hs ].
    intros cm [Hh [l [Hl [_ Hm]]]]. split; [ exact Hh | now exists l ].
  - intros Hready [l [Hl Hu]].
    rewrite <- window_last_entry, <- trimChatHistory_window in Hl.
    destruct (generateResponse_reaches respond m u r w l Hready Hl Hu)
      as [ai [rest [_ Hj']]].
    rewrite Hj in Hj'. apply app_inv_head in Hj'. subst evs.
    split; discriminate.
Qed.

Lemma generateResponse_windowing_witness :
  30 < List.length long_history /\
  List.length (window long_history) = 30 /\
  window long_history = repeat (ask "again") 30 /\
  generateResponse play long_history None 0 (configured ([], inl "Again!"))
  = generateResponse play (repeat (ask "again") 30) None 0
      (configured ([], inl "Again!")).
Proof.
  split; [ vm_compute; lia |].
  split.
  - apply (generateResponse_windowing play long_history None 0
             (configured ([], inl "Again!"))).
    vm_compute. lia.
  - split; [ reflexivity |].
    apply (generateResponse_windowing play long_history None 0
             (configured ([], inl "Again!"))).
Defined.

(** ** Histories the generator rejects *)

(** C2, as the code has it: with an empty history, or one whose last entry
    is not a user entry, the invocation fails without creating a chat
    session, sending a message or waiting; the error is the one for an
    invalid history whenever the provider client can be obtained (it exists
    already, or the API key is set), and the one for a missing API key
    otherwise. *)
Theorem generateResponse_invalid_history {Provider : Type}
  (respond : Responder Provider) (m : list Message) (u : option User) (r : nat)
  (w : World Provider) :
  (m = [] \/ exists l, last_entry m = Some l /\ role l <> "user") ->
  journal (snd (generateResponse respond m u r w)) = journal w /\
  provider (snd (generateResponse respond m u r w)) = provider w /\
  (client_ready w = true ->
   fst (generateResponse respond m u r w)
   = inr (match m with
          | [] => InvalidHistory_empty
          | _ :: _ => InvalidHistory_last
          end)) /\
  (client_ready w = false ->
   fst (generateResponse respond m u r w) = inr ConfigurationError).
Proof.
  intros Hbad. rewrite (generateResponse_rejects respond m u r w Hbad).
  unfold client_ready. destruct (the_client w) as [ai |]; simpl;
    repeat split; intros; congruence.
Qed.

Lemma generateResponse_invalid_history_witness :
  last_entry [ask "What is a stack?"; {| role := "bot"; content := "A LIFO." |}]
  = Some {| role := "bot"; content := "A LIFO." |} /\
  fst (generateResponse play
         [ask "What is a stack?"; {| role := "bot"; content := "A LIFO." |}]
         None 0 (configured ([], inl "unused")))
  = inr InvalidHistory_last.
Proof.
  split; [ reflexivity |].
  apply (generateResponse_invalid_history play
           [ask "What is a stack?"; {| role := "bot"; content := "A LIFO." |}]
           None 0 (configured ([], inl "unused"))).
  - right. exists {| role := "bot"; content := "A LIFO." |}.
    split; [ reflexivity | discriminate ].
  - reflexivity.
Defined.

(** C2 as stated fails: on an empty history, in a process without API key,
    the invocation fails with the error for the missing key, not with the
    one for an invalid history. *)
Lemma generateResponse_invalid_history_unconfigured :
  fst (generateResponse play [] None 0 (unconfigured ([], inl "unused")))
  = inr ConfigurationError /\
  fst (generateResponse play [] None 0 (unconfigured ([], inl "unused")))
  <> inr InvalidHistory_empty.
Proof.
  split; [ reflexivity |].
  change (fst (generateResponse play [] None 0 (unconfigured ([], inl "unused"))))
    with (@inr string JsError ConfigurationError).
  discriminate.
Qed.

(** ** Prior turns and the new user turn *)

(** C6: when the window is not empty, the prior turns given to the
    provider are the windowed messages but the last, in the same order, each
    with its content as text, with role "user" kept and role "assistant"
    turned into "model"; the content of the last message is what is sent. *)
Theorem generateResponse_prior_turns {Provider : Type}
  (respond : Responder Provider) (m : list Message) (u : option User) (r : nat)
  (w : World Provider) :
  trimChatHistory m <> [] ->
  exists last,
    trimChatHistory m = (removelast (trimChatHistory m) ++ [last])%list /\
    List.length (convertToGeminiHistory (removelast (trimChatHistory m)))
    = List.length (trimChatHistory m) - 1 /\
    (forall i msg,
        nth_error (removelast (trimChatHistory m)) i = Some msg ->
        exists turn,
          nth_error (convertToGeminiHistory (removelast (trimChatHistory m))) i
          = Some turn /\
          parts turn = [ {| text := content msg |} ] /\
          (role msg = "user" -> c_role turn = "user") /\
          (role msg = "assistant" -> c_role turn = "model")) /\
    exists evs,
      journal (snd (generateResponse respond m u r w)) = (journal w ++ evs)%list /\
      Forall (fun p => history p
                       = convertToGeminiHistory (removelast (trimChatHistory m)))
             (created evs) /\
      Forall (fun cm =>
                history (params (fst cm))
                = convertToGeminiHistory (removelast (trimChatHistory m)) /\
                snd cm = content last)
             (sent evs) /\
      (client_ready w = true -> role last = "user" ->
       exists ai p rest,
         history p = convertToGeminiHistory (removelast (trimChatHistory m)) /\
         evs = chats_create ai p
               :: chat_sendMessage {| client := ai; params := p |} (content last)
               :: rest).
Proof.
  intros Hne.
  destruct (exists_last Hne) as [prior [last Hsplit]].
  assert (Hprior : removelast (trimChatHistory m) = prior)
    by (rewrite Hsplit; apply removelast_last).
  assert (Hlast : last_entry (trimChatHistory m) = Some last)
    by (rewrite Hsplit; apply last_entry_app).
  exists last. rewrite Hprior. split; [ exact Hsplit |].
  split.
  { rewrite convertToGeminiHistory_length, Hsplit, length_app. simpl. lia. }
  split.
  { intros i msg Hi. eexists.
    split; [ apply convertToGeminiHistory_nth; exact Hi |].
    simpl. split; [ reflexivity |].
    split; intros ->; reflexivity. }
  destruct (generateResponse_calls respond m u r w) as [evs [Hj [_ [Hc Hs]]]].
  rewrite Hprior in Hc, Hs.
  exists evs. split; [ exact Hj |]. split; [ exact Hc |]. split.
  - eapply Forall_impl; [| exact Hs ].
    intros cm [Hh [l [Hl [_ Hm]]]]. split; [ exact Hh |]. congruence.
  - intros Hready Hu.
    destruct (generateResponse_reaches respond m u r w last Hready Hlast Hu)
      as [ai [rest [_ Hj']]].
    rewrite Hj in Hj'. apply app_inv_head in Hj'.
    exists ai, (call_params m u r), rest. split; [| exact Hj' ].
    rewrite call_params_history. now rewrite Hprior.
Qed.

Lemma generateResponse_prior_turns_witness :
  exists evs,
    journal (snd (generateResponse play
                    [ask "What is a stack?";
                     {| role := "assistant"; content := "A LIFO." |};
                     ask "And a queue?"]
                    None 0 (configured ([], inl "A FIFO."))))
    = ([] ++ evs)%list /\
    Forall (fun cm =>
              history (params (fst cm))
              = [ {| c_role := "user"; parts := [ {| text := "What is a stack?" |} ] |};
                  {| c_role := "model"; parts := [ {| text := "A LIFO." |} ] |} ] /\
              snd cm = "And a queue?")
           (sent evs).
Proof.
  destruct (generateResponse_prior_turns play
              [ask "What is a stack?";
               {| role := "assistant"; content := "A LIFO." |};
               ask "And a queue?"]
              None 0 (configured ([], inl "A FIFO.")))
    as [last [Hsplit [_ [_ [evs [Hj [_ [Hs _]]]]]]]].
  - vm_compute. discriminate.
  - exists evs. split; [ exact Hj |].
    apply (app_inj_tail
             [ask "What is a stack?"; {| role := "assistant"; content := "A LIFO." |}]
             (removelast (trimChatHistory
                            [ask "What is a stack?";
                             {| role := "assistant"; content := "A LIFO." |};
                             ask "And a queue?"]))
             (ask "And a queue?") last) in Hsplit.
    destruct Hsplit as [_ <-]. exact Hs.
Defined.

(** ** Retries *)

(** C3: a retryable error at attempt [a < 3] makes the invocation wait
    [2 ^ a] seconds (1000, 2000, 4000 milliseconds at attempts 0, 1, 2) and
    go on as the invocation at attempt [a + 1] with the same messages and
    user; an invocation started at attempt 0 hence waits at most three
    times and sends at most four messages, and from attempt 3 on nothing is
    retried. *)
Theorem generateResponse_backoff {Provider : Type} (respond : Responder Provider)
  (m : list Message) (u : option User) :
  (forall a w e w1,
      generateResponse_try respond m u a w = (inr e, w1) ->
      isRetryable e = true ->
      a < MAX_RETRIES ->
      generateResponse respond m u a w
      = generateResponse respond m u (a + 1) (sleep (2 ^ Z.of_nat a * 1000)%Z w1) /\
      journal (sleep (2 ^ Z.of_nat a * 1000)%Z w1)
      = (journal w1 ++ [setTimeout (2 ^ Z.of_nat a * 1000)%Z])%list /\
      provider (sleep (2 ^ Z.of_nat a * 1000)%Z w1) = provider w1) /\
  map backoff_delay [0; 1; 2] = [1000; 2000; 4000]%Z /\
  (forall w,
      exists evs k,
        journal (snd (generateResponse respond m u 0 w)) = (journal w ++ evs)%list /\
        k <= 3 /\
        timeouts evs = firstn k [1000; 2000; 4000]%Z /\
        List.length (sent evs) <= k + 1 /\
        List.length (created evs) = List.length (sent evs)) /\
  (forall a w,
      MAX_RETRIES <= a ->
      (exists evs,
          journal (snd (generateResponse respond m u a w)) = (journal w ++ evs)%list /\
          timeouts evs = [] /\ List.length (sent evs) <= 1) /\
      forall e w1,
        generateResponse_try respond m u a w = (inr e, w1) ->
        generateResponse respond m u a w = (inr (specific_error e), w1)).
Proof.
  split.
  { intros a w e w1 Htry Hretry Hlt. split; [| split; reflexivity ].
    rewrite generateResponse_step, Htry, Hretry.
    apply Nat.ltb_lt in Hlt. now rewrite Hlt. }
  split; [ reflexivity |].
  split.
  { intros w.
    destruct (generateResponse_run respond m u MAX_RETRIES 0 w (Nat.le_sub_l _ _))
      as [evs [Hj Hrun]].
    destruct (run_trace_retries m u 0 evs Hrun) as [k [Hk [Ht [Hs Hc]]]].
    exists evs, k. unfold MAX_RETRIES in Hk.
    split; [ exact Hj |]. split; [ lia |].
    split; [ rewrite Ht; apply backoff_delays; lia |]. split; assumption. }
  intros a w Ha. split.
  - destruct (generateResponse_run respond m u 0 a w ltac:(lia))
      as [evs [Hj Hrun]].
    destruct (run_trace_retries m u a evs Hrun) as [k [Hk [Ht [Hs _]]]].
    assert (k = 0) by lia. subst k.
    exists evs. split; [ exact Hj |]. split; [ exact Ht | exact Hs ].
  - intros e w1 Htry. apply generateResponse_stops; [ exact Htry |].
    replace (a <? MAX_RETRIES)%nat with false
      by (symmetry; apply Nat.ltb_ge; exact Ha).
    apply andb_false_r.
Qed.

Lemma generateResponse_backoff_witness :
  exists w1,
    generateResponse_try play [ask "What is a stack?"] None 1
      (configured ([inr overloaded], inl "A LIFO.")) = (inr overloaded, w1) /\
    generateResponse play [ask "What is a stack?"] None 1
      (configured ([inr overloaded], inl "A LIFO."))
    = generateResponse play [ask "What is a stack?"] None 2 (sleep 2000%Z w1).
Proof.
  eexists. split; [ vm_compute; reflexivity |].
  apply (proj1 (generateResponse_backoff play [ask "What is a stack?"] None)
           1 (configured ([inr overloaded], inl "A LIFO.")) overloaded).
  - vm_compute. reflexivity.
  - reflexivity.
  - unfold MAX_RETRIES. lia.
Defined.

(** The end-to-end scenario of the specification: a provider that keeps
    answering "503 overloaded" is tried four times, on the first model
    twice and on the second twice, with waits of 1, 2 and 4 seconds, and
    the caller gets the busy error. *)
Example generateResponse_overloaded_scenario :
  let run := generateResponse play [ask "What is a stack?"] None 0
               (configured ([], inr overloaded)) in
  fst run = inr ProviderBusy /\
  timeouts (journal (snd run)) = [1000; 2000; 4000]%Z /\
  map snd (sent (journal (snd run)))
  = ["What is a stack?"; "What is a stack?"; "What is a stack?"; "What is a stack?"] /\
  map model (created (journal (snd run)))
  = [Some "gemini-2.5-flash"; Some "gemini-2.5-flash";
     Some "gemini-2.0-flash"; Some "gemini-2.0-flash"] /\
  map history (created (journal (snd run))) = [[]; []; []; []].
Proof. vm_compute. repeat split; reflexivity. Qed.

(** ** Errors the caller gets *)

Lemma strict_eq_iff (x : option Z) (n : Z) : strict_eq x n = true <-> x = Some n.
Proof.
  destruct x as [z |]; simpl; [| split; discriminate ].
  rewrite Z.eqb_eq. split; congruence.
Qed.

(** The chain of tests on a message that is a string: the searches in its
    text, in the order of the source. *)
Lemma specific_error_string (e : JsError) (text : string) :
  message e = JsString text ->
  specific_error e =
  if JS.includes text "API key" || JS.includes text "API_KEY" then
    Error "Invalid or missing Gemini API key. Please check your configuration."
  else if JS.includes text "quota" then
    Error "API quota exceeded. Please try again later."
  else if JS.includes text "safety" || JS.includes text "SAFETY" then
    Error "Response blocked due to safety settings. Please rephrase your question."
  else if JS.includes text "not found" || JS.includes text "404" then
    Error "Model not found. Please check the model name configuration."
  else if strict_eq (status e) 503 || JS.includes text "overloaded" then
    Error "AI service is currently busy. Please try again in a moment."
  else
    Error ("Failed to generate response: " ++ text).
Proof.
  intros H. unfold specific_error. rewrite H. cbn [message_includes template].
  destruct (JS.includes text "API key"), (JS.includes text "API_KEY"),
    (JS.includes text "quota"), (JS.includes text "safety"),
    (JS.includes text "SAFETY"), (JS.includes text "not found"),
    (JS.includes text "404"), (strict_eq (status e) 503),
    (JS.includes text "overloaded"); reflexivity.
Qed.

(** The chain of tests on a missing message: only the test of [status]
    can succeed. *)
Lemma specific_error_missing (e : JsError) :
  message e = JsUndefined \/ message e = JsNull ->
  specific_error e =
  if strict_eq (status e) 503 then ProviderBusy
  else Error ("Failed to generate response: " ++ template (message e)).
Proof.
  intros [H | H]; unfold specific_error; rewrite H; cbn;
    destruct (strict_eq (status e) 503); reflexivity.
Qed.

(** The chain of tests, when none of the earlier patterns occurs in the
    text. *)
Lemma specific_error_late (e : JsError) (text : string) :
  message e = JsString text ->
  earlier_pattern text = false ->
  specific_error e =
  if strict_eq (status e) 503 || JS.includes text "overloaded"
  then ProviderBusy else UnknownProviderError text.
Proof.
  intros Hm H. rewrite (specific_error_string e text Hm).
  unfold earlier_pattern in H.
  repeat (apply orb_false_iff in H; destruct H as [H ?]).
  repeat match goal with
         | Hx : JS.includes _ _ = false |- _ => rewrite Hx; clear Hx
         end.
  reflexivity.
Qed.

(** An error that is not retryable has neither status 503 nor the word
    "overloaded" in its text. *)
Lemma not_retryable_not_busy (e : JsError) (text : string) :
  message e = JsString text ->
  isRetryable e = false ->
  strict_eq (status e) 503 || JS.includes text "overloaded" = false.
Proof.
  unfold isRetryable, errorStatus, errorMessage. intros Hm H. rewrite Hm in H.
  cbn [text_includes] in H.
  repeat (apply orb_false_iff in H; destruct H as [H ?]).
  apply orb_false_iff. split; [| assumption ].
  destruct (status e) as [s |]; [| reflexivity ].
  simpl. destruct (Z.eqb_spec s 503) as [-> | _]; [| reflexivity ].
  simpl in H. discriminate.
Qed.

Lemma not_retryable_status (e : JsError) :
  isRetryable e = false -> strict_eq (status e) 503 = false.
Proof.
  unfold isRetryable, errorStatus. intros H.
  repeat (apply orb_false_iff in H; destruct H as [H ?]).
  destruct (status e) as [s |]; [| reflexivity ].
  simpl. destruct (Z.eqb_spec s 503) as [-> | _]; [| reflexivity ].
  simpl in H. discriminate.
Qed.




(** C8 fails on the code: the provider's error [{ message: { code: 500 } }]
    shows none of the signs of a retryable error and none of the patterns
    of the specific messages, yet the caller does not get the catch-all
    message around it.  The test of retryability reads the message through
    [typeof] and [JSON.stringify]; the tests that follow call
    [error.message?.includes] on the object itself, and the call throws a
    [TypeError] out of the [catch] block.  (One message is sent, nothing
    is retried.) *)
Theorem catch_all_missed_on_object_message :
  isRetryable object_error = false /\
  errorMessage object_error = Some ("{" ++ JS.dq ++ "code" ++ JS.dq ++ ":500}") /\
  generateResponse play [ask "What is a stack?"] None 0
    (configured ([], inr object_error))
  = (inr not_a_function,
     {| GEMINI_API_KEY := Some "test-key"; _ai := Some {| apiKey := "test-key" |};
        provider := ([], inr object_error);
        journal := attempt_calls {| apiKey := "test-key" |}
                     (call_params [ask "What is a stack?"] None 0)
                     "What is a stack?" |}) /\
  not_a_function
  <> Error ("Failed to generate response: " ++ template (message object_error)).
Proof.
  split; [ reflexivity |]. split; [ reflexivity |].
  split; [ vm_compute; reflexivity | discriminate ].
Qed.

(** ** Signs of a retryable error *)

(** X17: an error is retryable exactly when its status ([error.status ||
    error.statusCode]) is 503 or 429 or the text of its message (the string
    itself, otherwise its [JSON.stringify]) contains one of "503", "429",
    "overloaded", "UNAVAILABLE", "rate limit"; an error with none of these
    signs ends the invocation at once, whatever the attempt; and when its
    message is a string that also contains none of the patterns of the
    specific messages, or is missing, the caller gets the catch-all message
    around it. *)
Theorem isRetryable_signals {Provider : Type} (respond : Responder Provider) :
  (forall e,
      isRetryable e = true <->
      (errorStatus e = Some 503%Z \/ errorStatus e = Some 429%Z \/
       exists pat,
         In pat ["503"; "429"; "overloaded"; "UNAVAILABLE"; "rate limit"] /\
         exists before after, errorMessage e = Some (before ++ pat ++ after))) /\
  (forall m u a w e w1,
      generateResponse_try respond m u a w = (inr e, w1) ->
      isRetryable e = false ->
      generateResponse respond m u a w = (inr (specific_error e), w1) /\
      (forall text,
          message e = JsString text ->
          earlier_pattern text = false ->
          generateResponse respond m u a w
          = (inr (Error ("Failed to generate response: " ++ text)), w1)) /\
      (message e = JsUndefined \/ message e = JsNull ->
       generateResponse respond m u a w
       = (inr (Error ("Failed to generate response: " ++ template (message e))),
          w1))).
Proof.
  split.
  - intros e. unfold isRetryable. rewrite !orb_true_iff, !strict_eq_iff.
    assert (Hinc : forall pat,
               text_includes (errorMessage e) pat = true <->
               exists before after, errorMessage e = Some (before ++ pat ++ after)).
    { intros pat. destruct (errorMessage e) as [text |]; simpl.
      - rewrite includes_iff. split.
        + intros [x [y ->]]. now exists x, y.
        + intros [x [y H]]. injection H as ->. now exists x, y.
      - split; [ discriminate | intros [x [y H]]; discriminate ]. }
    rewrite !Hinc. split.
    + intros [[[[[[H | H] | H] | H] | H] | H] | H]; auto;
        right; right; eexists; (split; [| exact H ]); simpl; auto 10.
    + intros [H | [H | [pat [Hin H]]]]; auto 10.
      simpl in Hin.
      destruct Hin as [<- | [<- | [<- | [<- | [<- | []]]]]]; auto 10.
  - intros m u a w e w1 Htry Hno.
    assert (Hstop : generateResponse respond m u a w = (inr (specific_error e), w1)).
    { apply generateResponse_stops; [ exact Htry |]. now rewrite Hno. }
    split; [ exact Hstop |]. split.
    + intros text Hm Hearly.
      rewrite Hstop, (specific_error_late e text Hm Hearly),
        (not_retryable_not_busy e text Hm Hno).
      reflexivity.
    + intros Hm. rewrite Hstop, (specific_error_missing e Hm),
        (not_retryable_status e Hno).
      reflexivity.
Qed.

Lemma isRetryable_signals_witness :
  exists w1,
    generateResponse_try play [ask "What is a stack?"] None 0
      (configured ([], inr (Error "socket hang up")))
    = (inr (Error "socket hang up"), w1) /\
    generateResponse play [ask "What is a stack?"] None 0
      (configured ([], inr (Error "socket hang up")))
    = (inr (Error "Failed to generate response: socket hang up"), w1).
Proof.
  eexists. split; [ vm_compute; reflexivity |].
  apply (proj1 (proj2 (proj2 (isRetryable_signals play) [ask "What is a stack?"]
                         None 0 (configured ([], inr (Error "socket hang up")))
                         (Error "socket hang up") _
                         ltac:(vm_compute; reflexivity) eq_refl))
           "socket hang up").
  - reflexivity.
  - reflexivity.
Defined.

(** * Further properties of the service *)

(** ** The lazily created client *)

(** X1: once [getAI] has handed out a client, the client is kept in
    [_ai]; the key, the provider and the journal are as before; a client
    created by this call carries the key of the environment, which is not
    empty; and from then on [getAI] returns that client whatever the
    environment says.  When [getAI] throws, nothing has changed and there
    was no client. *)
Theorem getAI_singleton {Provider : Type} (w : World Provider) :
  (forall ai w1,
      getAI w = (inl ai, w1) ->
      _ai w1 = Some ai /\
      GEMINI_API_KEY w1 = GEMINI_API_KEY w /\
      provider w1 = provider w /\ journal w1 = journal w /\
      (_ai w = None -> GEMINI_API_KEY w = Some (apiKey ai) /\ apiKey ai <> "") /\
      forall key, getAI {| GEMINI_API_KEY := key; _ai := _ai w1;
                           provider := provider w1; journal := journal w1 |}
                  = (inl ai, {| GEMINI_API_KEY := key; _ai := _ai w1;
                                provider := provider w1; journal := journal w1 |})) /\
  (forall e w1,
      getAI w = (inr e, w1) ->
      w1 = w /\ _ai w = None /\
      (GEMINI_API_KEY w = None \/ GEMINI_API_KEY w = Some "") /\
      e = Error "GEMINI_API_KEY environment variable is not set").
Proof.
  destruct w as [key cached p j]. unfold getAI. simpl. split.
  - intros ai w1 H. destruct cached as [ai0 |].
    + injection H as <- <-. simpl. repeat split; [ discriminate | discriminate ].
    + destruct key as [k |]; [| discriminate ].
      destruct k as [| c k]; simpl in H; [ discriminate |].
      injection H as <- <-. simpl. repeat split. discriminate.
  - intros e w1 H. destruct cached as [ai0 |]; [ discriminate |].
    destruct key as [k |].
    + destruct k as [| c k]; simpl in H; [| discriminate ].
      injection H as <- <-. repeat split. now right.
    + injection H as <- <-. repeat split. now left.
Qed.

Lemma getAI_singleton_witness :
  exists ai w1,
    getAI (configured ([], inl "unused")) = (inl ai, w1) /\
    apiKey ai = "test-key" /\
    getAI {| GEMINI_API_KEY := None; _ai := _ai w1;
             provider := provider w1; journal := journal w1 |}
    = (inl ai, {| GEMINI_API_KEY := None; _ai := _ai w1;
                  provider := provider w1; journal := journal w1 |}).
Proof.
  eexists. eexists. split; [ reflexivity |]. split; [ reflexivity |].
  apply (proj1 (getAI_singleton (configured ([], inl "unused")))). reflexivity.
Defined.

(** ** Invocations that never reach the provider *)

(** X2: when there is no client and the API key is missing or empty,
    every invocation -- whatever the history, the user and the attempt --
    fails with the error for the API key and leaves the world as it was: no
    chat session, no message, no wait. *)
Theorem generateResponse_unconfigured {Provider : Type}
  (respond : Responder Provider) (m : list Message) (u : option User) (r : nat)
  (w : World Provider) :
  _ai w = None ->
  GEMINI_API_KEY w = None \/ GEMINI_API_KEY w = Some "" ->
  generateResponse respond m u r w = (inr ConfigurationError, w).
Proof.
  intros Hai Hkey.
  assert (Hc : the_client w = None).
  { unfold the_client. rewrite Hai. destruct Hkey as [-> | ->]; reflexivity. }
  now rewrite generateResponse_step, generateResponse_try_spec, Hc.
Qed.

Lemma generateResponse_unconfigured_witness :
  generateResponse play [ask "What is a stack?"] None 0
    {| GEMINI_API_KEY := Some ""; _ai := None;
       provider := ([], inl "unused"); journal := [] |}
  = (inr ConfigurationError,
     {| GEMINI_API_KEY := Some ""; _ai := None;
        provider := ([], inl "unused"); journal := [] |}).
Proof.
  apply generateResponse_unconfigured; [ reflexivity | now right ].
Defined.

(** ** Invocations that reach the provider *)

(** X3: with a client and a history that ends with a user entry, an answer
    of the provider to the first attempt is returned as it is, after one
    chat session and one message and without any wait; the client is kept
    and the provider is in the state the answer left it in. *)
Theorem generateResponse_success {Provider : Type} (respond : Responder Provider)
  (m : list Message) (u : option User) (r : nat) (w : World Provider)
  (ai : GoogleGenAI) (l : Message) (answer : string) (p' : Provider) :
  the_client w = Some ai ->
  last_entry m = Some l ->
  role l = "user" ->
  respond (provider w) {| client := ai; params := call_params m u r |} (content l)
  = (inl answer, p') ->
  generateResponse respond m u r w
  = (inl answer,
     {| GEMINI_API_KEY := GEMINI_API_KEY w; _ai := Some ai; provider := p';
        journal := (journal w
                    ++ attempt_calls ai (call_params m u r) (content l))%list |}).
Proof.
  intros Hai Hl Hu Hr.
  rewrite <- window_last_entry, <- trimChatHistory_window in Hl.
  rewrite generateResponse_step, generateResponse_try_spec, Hai, Hl, Hu.
  rewrite String.eqb_refl. cbv zeta. now rewrite Hr.
Qed.

Lemma generateResponse_success_witness :
  fst (generateResponse play [ask "What is a stack?"] None 0
         (configured ([inl "A LIFO."], inl "unused")))
  = inl "A LIFO.".
Proof.
  rewrite (generateResponse_success play [ask "What is a stack?"] None 0
             (configured ([inl "A LIFO."], inl "unused"))
             {| apiKey := "test-key" |} (ask "What is a stack?") "A LIFO."
             ([], inl "unused"));
    reflexivity.
Defined.

(** ** The exact journal of an invocation *)

Lemma invocation_events_retry (ai : GoogleGenAI) (m : list Message)
  (u : option User) (l : Message) (r k : nat) :
  invocation_events ai m u l r (S k)
  = (attempt_calls ai (call_params m u r) (content l)
     ++ setTimeout (backoff_delay r) :: invocation_events ai m u l (r + 1) k)%list.
Proof.
  unfold invocation_events. cbn [seq flat_map].
  replace (r + S k) with (r + 1 + k) by lia.
  replace (S r) with (r + 1) by lia.
  rewrite <- !app_assoc. reflexivity.
Qed.

Lemma invocation_events_projections (ai : GoogleGenAI) (m : list Message)
  (u : option User) (l : Message) (k r : nat) :
  timeouts (invocation_events ai m u l r k) = map backoff_delay (seq r k) /\
  created (invocation_events ai m u l r k) = map (call_params m u) (seq r (S k)) /\
  sent (invocation_events ai m u l r k)
  = map (fun a => ({| client := ai; params := call_params m u a |}, content l))
        (seq r (S k)) /\
  Forall (fun e => event_client e = Some ai \/ event_client e = None)
         (invocation_events ai m u l r k).
Proof.
  revert r. induction k as [| k IH]; intros r.
  - unfold invocation_events. simpl. rewrite Nat.add_0_r.
    repeat split. repeat constructor; now left.
  - rewrite invocation_events_retry.
    destruct (IH (r + 1)) as [Ht [Hc [Hs Hf]]].
    change (setTimeout (backoff_delay r) :: invocation_events ai m u l (r + 1) k)
      with ([setTimeout (backoff_delay r)]
            ++ invocation_events ai m u l (r + 1) k)%list.
    rewrite !timeouts_app, !created_app, !sent_app, Ht, Hc, Hs.
    replace (r + 1) with (S r) by lia.
    repeat split.
    repeat (constructor; [ simpl; auto |]).
    replace (S r) with (r + 1) by lia. exact Hf.
Qed.

Section Shape.

Context {Provider : Type}.
Variable respond : Provider -> Chat -> string -> (string + JsError) * Provider.

(** An invocation that reaches the provider: its journal, client and key. *)
Lemma generateResponse_exact (m : list Message) (u : option User)
  (ai : GoogleGenAI) (l : Message) :
  last_entry (trimChatHistory m) = Some l ->
  role l = "user" ->
  forall (n r : nat) (w : World Provider),
    MAX_RETRIES - r <= n ->
    the_client w = Some ai ->
    exists k,
      k <= MAX_RETRIES - r /\
      journal (snd (generateResponse respond m u r w))
      = (journal w ++ invocation_events ai m u l r k)%list /\
      _ai (snd (generateResponse respond m u r w)) = Some ai /\
      GEMINI_API_KEY (snd (generateResponse respond m u r w)) = GEMINI_API_KEY w.
Proof.
  intros Hl Hu.
  assert (Hlast : forall r (w w1 : World Provider) (res : string + JsError),
             journal w1
             = (journal w ++ attempt_calls ai (call_params m u r) (content l))%list ->
             _ai w1 = Some ai ->
             GEMINI_API_KEY w1 = GEMINI_API_KEY w ->
             exists k,
               k <= MAX_RETRIES - r /\
               journal (snd (res, w1))
               = (journal w ++ invocation_events ai m u l r k)%list /\
               _ai (snd (res, w1)) = Some ai /\
               GEMINI_API_KEY (snd (res, w1)) = GEMINI_API_KEY w).
  { intros r w w1 res Hj Hc Hk. exists 0. unfold invocation_events. simpl.
    rewrite Nat.add_0_r. repeat split; try assumption. lia. }
  induction n as [| n IH]; intros r w Hn Hai;
    rewrite generateResponse_step, generateResponse_try_spec, Hai, Hl, Hu;
    rewrite String.eqb_refl; cbv zeta;
    destruct (respond _ _ _) as [[answer | e] p'];
    try (apply Hlast; reflexivity);
    destruct (isRetryable e && (r <? MAX_RETRIES)%nat) eqn:Hretry;
    try (apply Hlast; reflexivity);
    apply andb_true_iff in Hretry; destruct Hretry as [_ Hlt];
    apply Nat.ltb_lt in Hlt; [ lia |].
  match goal with
  | |- context [generateResponse respond m u (r + 1) ?w2] =>
      destruct (IH (r + 1) w2 ltac:(lia) eq_refl) as [k [Hk [Hj [Hc Hkey]]]]
  end.
  exists (S k). split; [ lia |].
  rewrite Hj, Hc, Hkey, invocation_events_retry. unfold sleep, record. simpl.
  repeat split. rewrite <- !app_assoc. reflexivity.
Qed.

(** Whatever happens, the key is not touched and [_ai] ends up holding the
    client [getAI] hands out in the initial world (if any). *)
Lemma generateResponse_environment (m : list Message) (u : option User) (r : nat)
  (w : World Provider) :
  GEMINI_API_KEY (snd (generateResponse respond m u r w)) = GEMINI_API_KEY w /\
  _ai (snd (generateResponse respond m u r w)) = the_client w.
Proof.
  destruct (the_client w) as [ai |] eqn:Hai.
  - destruct (last_entry (trimChatHistory m)) as [l |] eqn:Hl.
    + destruct (String.eqb_spec (role l) "user") as [Hu | Hu].
      * destruct (generateResponse_exact m u ai l Hl Hu (MAX_RETRIES - r) r w
                    (le_n _) Hai) as [k [_ [_ [Hc Hkey]]]].
        now split.
      * rewrite generateResponse_step, generateResponse_try_spec, Hai, Hl.
        apply String.eqb_neq in Hu. rewrite Hu. now split.
    + rewrite generateResponse_step, generateResponse_try_spec, Hai, Hl.
      now split.
  - rewrite generateResponse_step, generateResponse_try_spec, Hai. simpl.
    split; [ reflexivity |].
    unfold the_client in Hai. destruct (_ai w); [ discriminate | reflexivity ].
Qed.

End Shape.

(** ** Model selection *)

(** C4: at attempt [a] with a fallback list of [M] models the selected
    index is [min (floor (a / 2)) (M - 1)]; with the two configured models
    the attempts 0, 1, 2, 3 select the first, the first, the second and the
    second model, and every later attempt selects the last model.  These
    are the models of the chat sessions an invocation creates: the session
    of attempt [i] is created with the model of index [min (i / 2) 1], so
    an invocation started at attempt 0 creates its sessions with a prefix
    of first, first, second, second. *)
Theorem modelIndex_formula {Provider : Type} (respond : Responder Provider) :
  (forall models a,
      modelIndex models a
      = Z.min (Z.of_nat (a / 2)) (Z.of_nat (List.length models) - 1)) /\
  (forall models a,
      models <> [] ->
      selectedModel models a
      = nth_error models (Nat.min (a / 2) (List.length models - 1))) /\
  map (selectedModel MODELS) [0; 1; 2; 3]
  = [Some "gemini-2.5-flash"; Some "gemini-2.5-flash";
     Some "gemini-2.0-flash"; Some "gemini-2.0-flash"] /\
  (forall a, 2 <= a -> selectedModel MODELS a = Some "gemini-2.0-flash") /\
  (forall messages user a, model (call_params messages user a) = selectedModel MODELS a) /\
  (forall m u a (w : World Provider) ai l,
      the_client w = Some ai ->
      last_entry m = Some l ->
      role l = "user" ->
      exists k evs,
        k <= MAX_RETRIES - a /\
        journal (snd (generateResponse respond m u a w)) = (journal w ++ evs)%list /\
        List.length (created evs) = k + 1 /\
        map model (created evs)
        = map (fun i => nth_error MODELS (Nat.min (i / 2) (List.length MODELS - 1)))
              (seq a (k + 1)) /\
        (a = 0 ->
         map model (created evs)
         = firstn (k + 1)
             [Some "gemini-2.5-flash"; Some "gemini-2.5-flash";
              Some "gemini-2.0-flash"; Some "gemini-2.0-flash"])).
Proof.
  assert (Hidx : forall models a,
             modelIndex models a
             = Z.min (Z.of_nat (a / 2)) (Z.of_nat (List.length models) - 1)).
  { intros models a. unfold modelIndex. now rewrite Nat2Z.inj_div. }
  assert (Hsel : forall models a,
             models <> [] ->
             selectedModel models a
             = nth_error models (Nat.min (a / 2) (List.length models - 1))).
  { intros models a Hne. unfold selectedModel, JS.index. rewrite Hidx.
    destruct models as [| x models]; [ congruence |].
    set (len := List.length (x :: models)).
    assert (Hlen : 1 <= len) by (subst len; simpl; lia).
    replace (Z.min (Z.of_nat (a / 2)) (Z.of_nat len - 1))
      with (Z.of_nat (Nat.min (a / 2) (len - 1))) by lia.
    destruct (Z.ltb_spec (Z.of_nat (Nat.min (a / 2) (len - 1))) 0) as [H | _];
      [ lia |].
    now rewrite Nat2Z.id. }
  split; [ exact Hidx |]. split; [ exact Hsel |].
  split; [ reflexivity |]. split; [| split; [ reflexivity |] ].
  - intros a Ha. rewrite Hsel by discriminate.
    assert (H : 1 <= a / 2) by (apply Nat.div_le_lower_bound; lia).
    replace (Nat.min (a / 2) (List.length MODELS - 1)) with 1
      by (unfold MODELS; simpl List.length; lia).
    reflexivity.
  - intros m u a w ai l Hai Hl Hu.
    rewrite <- window_last_entry, <- trimChatHistory_window in Hl.
    destruct (generateResponse_exact respond m u ai l Hl Hu (MAX_RETRIES - a) a w
                (le_n _) Hai) as [k [Hk [Hj _]]].
    destruct (invocation_events_projections ai m u l k a) as [_ [Hc _]].
    exists k, (invocation_events ai m u l a k).
    assert (Hmodels : map model (created (invocation_events ai m u l a k))
                      = map (fun i => nth_error MODELS
                                        (Nat.min (i / 2) (List.length MODELS - 1)))
                            (seq a (k + 1))).
    { rewrite Hc, map_map. replace (S k) with (k + 1) by lia.
      apply map_ext. intros i. cbn [model call_params].
      apply Hsel. discriminate. }
    split; [ exact Hk |]. split; [ exact Hj |].
    split; [ rewrite Hc, length_map, length_seq; lia |].
    split; [ exact Hmodels |].
    intros ->. rewrite Hmodels. unfold MAX_RETRIES in Hk.
    destruct k as [| [| [| [| k]]]]; try reflexivity. lia.
Qed.

Lemma modelIndex_formula_witness :
  selectedModel MODELS 7 = Some "gemini-2.0-flash" /\
  exists k evs,
    journal (snd (generateResponse play [ask "What is a stack?"] None 0
                    (configured ([inr overloaded; inr overloaded], inl "A LIFO."))))
    = ([] ++ evs)%list /\
    map model (created evs)
    = firstn (k + 1)
        [Some "gemini-2.5-flash"; Some "gemini-2.5-flash";
         Some "gemini-2.0-flash"; Some "gemini-2.0-flash"].
Proof.
  split.
  - apply (proj1 (proj2 (proj2 (proj2 (modelIndex_formula play)))) 7). lia.
  - destruct (proj2 (proj2 (proj2 (proj2 (proj2 (modelIndex_formula play)))))
                [ask "What is a stack?"] None 0
                (configured ([inr overloaded; inr overloaded], inl "A LIFO."))
                {| apiKey := "test-key" |} (ask "What is a stack?")
                eq_refl eq_refl eq_refl)
      as [k [evs [_ [Hj [_ [_ Hm]]]]]].
    exists k, evs. split; [ exact Hj | exact (Hm eq_refl) ].
Defined.

Lemma map_const_repeat (A B : Type) (c : B) (xs : list A) :
  map (fun _ => c) xs = repeat c (List.length xs).
Proof. induction xs as [| x xs IH]; simpl; [ reflexivity | now rewrite IH ]. Qed.

(** X4: an invocation that reaches the provider (there is a client and the
    history ends with a user entry) leaves in the journal, for some number
    [k] of retries not above the retries left, [k] times a chat session, a
    message and a wait, and then a last chat session and message.  So it
    sends one message more than it waits, the waits are the back-off delays
    of the attempts [r], [r + 1], ... and the sessions are created, in
    order, with the models of those attempts, all with the same system
    instruction, output limit and temperature. *)
Theorem generateResponse_journal_shape {Provider : Type}
  (respond : Responder Provider) (m : list Message) (u : option User) (r : nat)
  (w : World Provider) (ai : GoogleGenAI) (l : Message) :
  the_client w = Some ai ->
  last_entry m = Some l ->
  role l = "user" ->
  exists k evs,
    k <= MAX_RETRIES - r /\
    journal (snd (generateResponse respond m u r w)) = (journal w ++ evs)%list /\
    evs = invocation_events ai m u l r k /\
    timeouts evs = map backoff_delay (seq r k) /\
    List.length (sent evs) = k + 1 /\
    map snd (sent evs) = repeat (content l) (k + 1) /\
    map model (created evs) = map (selectedModel MODELS) (seq r (k + 1)) /\
    Forall (fun p => config p = {| systemInstruction := buildPersonalizedPrompt u;
                                   maxOutputTokens := 8192;
                                   temperature := (8 # 10)%Q |})
           (created evs).
Proof.
  intros Hai Hl Hu.
  rewrite <- window_last_entry, <- trimChatHistory_window in Hl.
  destruct (generateResponse_exact respond m u ai l Hl Hu (MAX_RETRIES - r) r w
              (le_n _) Hai) as [k [Hk [Hj _]]].
  exists k, (invocation_events ai m u l r k).
  destruct (invocation_events_projections ai m u l k r) as [Ht [Hc [Hs _]]].
  split; [ exact Hk |]. split; [ exact Hj |]. split; [ reflexivity |].
  split; [ exact Ht |]. rewrite Hs, Hc, !length_map, !map_map, length_seq.
  replace (S k) with (k + 1) by lia.
  split; [ reflexivity |]. split; [| split; [ reflexivity |] ].
  - cbn [snd]. rewrite map_const_repeat, length_seq. reflexivity.
  - apply Forall_forall. intros p Hp. apply in_map_iff in Hp.
    destruct Hp as [a [<- _]]. reflexivity.
Qed.

Lemma generateResponse_journal_shape_witness :
  exists k evs,
    k <= MAX_RETRIES - 0 /\
    journal (snd (generateResponse play [ask "What is a stack?"] None 0
                    (configured ([inr overloaded], inl "A LIFO."))))
    = ([] ++ evs)%list /\
    List.length (sent evs) = k + 1.
Proof.
  destruct (generateResponse_journal_shape play [ask "What is a stack?"] None 0
              (configured ([inr overloaded], inl "A LIFO."))
              {| apiKey := "test-key" |} (ask "What is a stack?")
              eq_refl eq_refl eq_refl)
    as [k [evs [Hk [Hj [_ [_ [Hs _]]]]]]].
  exists k, evs. repeat split; assumption.
Defined.

(** X5: no invocation touches the API key of the environment, and after
    it [_ai] holds exactly the client [getAI] would hand out in the initial
    world (none when there is neither client nor key): the client is
    created at most once, and every chat session and message of the
    invocation goes through it. *)
Theorem generateResponse_keeps_environment {Provider : Type}
  (respond : Responder Provider) (m : list Message) (u : option User) (r : nat)
  (w : World Provider) :
  GEMINI_API_KEY (snd (generateResponse respond m u r w)) = GEMINI_API_KEY w /\
  _ai (snd (generateResponse respond m u r w)) = the_client w /\
  forall evs,
    journal (snd (generateResponse respond m u r w)) = (journal w ++ evs)%list ->
    Forall (fun e => event_client e = None \/ event_client e = the_client w) evs.
Proof.
  destruct (generateResponse_environment respond m u r w) as [Hkey Hc].
  split; [ exact Hkey |]. split; [ exact Hc |].
  intros evs Hj.
  destruct (the_client w) as [ai |] eqn:Hai.
  - destruct (last_entry (trimChatHistory m)) as [l |] eqn:Hl.
    + destruct (String.eqb_spec (role l) "user") as [Hu | Hu].
      * destruct (generateResponse_exact respond m u ai l Hl Hu (MAX_RETRIES - r)
                    r w (le_n _) Hai) as [k [_ [Hj' _]]].
        rewrite Hj in Hj'. apply app_inv_head in Hj'. subst evs.
        destruct (invocation_events_projections ai m u l k r) as [_ [_ [_ Hf]]].
        eapply Forall_impl; [| exact Hf ]. intros e [He | He]; auto.
      * rewrite generateResponse_step, generateResponse_try_spec, Hai, Hl in Hj.
        apply String.eqb_neq in Hu. rewrite Hu in Hj. simpl in Hj.
        rewrite <- (app_nil_r (journal w)) in Hj at 1.
        apply app_inv_head in Hj. subst evs. constructor.
    + rewrite generateResponse_step, generateResponse_try_spec, Hai, Hl in Hj.
      simpl in Hj. rewrite <- (app_nil_r (journal w)) in Hj at 1.
      apply app_inv_head in Hj. subst evs. constructor.
  - rewrite generateResponse_step, generateResponse_try_spec, Hai in Hj.
    simpl in Hj. rewrite <- (app_nil_r (journal w)) in Hj at 1.
    apply app_inv_head in Hj. subst evs. constructor.
Qed.

(** ** Invocations against a scripted provider *)

Lemma generateResponse_script (m : list Message) (u : option User)
  (ai : GoogleGenAI) (l : Message) (final : string + JsError)
  (rest : list (string + JsError)) (dflt : string + JsError) :
  last_entry (trimChatHistory m) = Some l ->
  role l = "user" ->
  forall (es : list JsError) (r : nat) (w : World Script),
    the_client w = Some ai ->
    provider w = ((map inr es ++ final :: rest)%list, dflt) ->
    Forall (fun e => isRetryable e = true) es ->
    r + List.length es <= MAX_RETRIES ->
    match final with
    | inl _ => True
    | inr e => isRetryable e = false \/ r + List.length es = MAX_RETRIES
    end ->
    generateResponse play m u r w
    = (match final with
       | inl answer => inl answer
       | inr e => inr (specific_error e)
       end,
       {| GEMINI_API_KEY := GEMINI_API_KEY w; _ai := Some ai;
          provider := (rest, dflt);
          journal := (journal w
                      ++ invocation_events ai m u l r (List.length es))%list |}).
Proof.
  intros Hl Hu. induction es as [| e es IH]; intros r w Hai Hp Hes Hr Hfinal;
    rewrite generateResponse_step, generateResponse_try_spec, Hai, Hl, Hu;
    rewrite String.eqb_refl; cbv zeta; rewrite Hp; unfold play; simpl.
  - unfold invocation_events. simpl. rewrite Nat.add_0_r in *.
    destruct final as [answer | e]; [ reflexivity |].
    replace (isRetryable e && (r <? MAX_RETRIES)%nat) with false; [ reflexivity |].
    symmetry. destruct Hfinal as [-> | ->]; [ reflexivity |].
    rewrite Nat.ltb_irrefl. apply andb_false_r.
  - inversion Hes as [| e' es' He Hes' ]; subst. simpl in Hr.
    rewrite He. replace (r <? MAX_RETRIES)%nat with true
      by (symmetry; apply Nat.ltb_lt; lia).
    simpl andb. cbv iota.
    rewrite IH; try assumption;
      [ | reflexivity | reflexivity | lia
        | destruct final; [ exact I | destruct Hfinal as [Hf | Hf];
            [ now left | right; cbn [List.length] in Hf; lia ] ] ].
    rewrite invocation_events_retry. unfold sleep, record. simpl.
    rewrite <- !app_assoc. reflexivity.
Qed.

(** X6: against a provider that fails with retryable errors at most three
    times and then answers, an invocation started at attempt 0 returns that
    answer, after one wait per failure (the first of 1, 2 and 4 seconds) and
    one message per failure and one more; the answers that follow in the
    script are left for later invocations. *)
Theorem generateResponse_recovers (m : list Message) (u : option User)
  (w : World Script) (ai : GoogleGenAI) (l : Message) (es : list JsError)
  (answer : string) (rest : list (string + JsError)) (dflt : string + JsError) :
  the_client w = Some ai ->
  last_entry m = Some l ->
  role l = "user" ->
  Forall (fun e => isRetryable e = true) es ->
  List.length es <= MAX_RETRIES ->
  provider w = ((map inr es ++ inl answer :: rest)%list, dflt) ->
  fst (generateResponse play m u 0 w) = inl answer /\
  provider (snd (generateResponse play m u 0 w)) = (rest, dflt) /\
  journal (snd (generateResponse play m u 0 w))
  = (journal w ++ invocation_events ai m u l 0 (List.length es))%list /\
  timeouts (invocation_events ai m u l 0 (List.length es))
  = firstn (List.length es) [1000; 2000; 4000]%Z /\
  List.length (sent (invocation_events ai m u l 0 (List.length es)))
  = List.length es + 1.
Proof.
  intros Hai Hl Hu Hes Hlen Hp.
  rewrite <- window_last_entry, <- trimChatHistory_window in Hl.
  rewrite (generateResponse_script m u ai l (inl answer) rest dflt Hl Hu es 0 w
             Hai Hp Hes Hlen I).
  destruct (invocation_events_projections ai m u l (List.length es) 0)
    as [Ht [_ [Hs _]]].
  repeat split.
  - rewrite Ht. apply backoff_delays. exact Hlen.
  - rewrite Hs, length_map, length_seq. lia.
Qed.

Lemma generateResponse_recovers_witness :
  fst (generateResponse play [ask "What is a stack?"] None 0
         (configured ([inr overloaded; inr rate_limited; inl "A LIFO."],
                      inl "unused")))
  = inl "A LIFO.".
Proof.
  apply (generateResponse_recovers [ask "What is a stack?"] None
           (configured ([inr overloaded; inr rate_limited; inl "A LIFO."],
                        inl "unused"))
           {| apiKey := "test-key" |} (ask "What is a stack?")
           [overloaded; rate_limited] "A LIFO." [] (inl "unused")).
  - reflexivity.
  - reflexivity.
  - reflexivity.
  - repeat constructor.
  - unfold MAX_RETRIES. simpl. lia.
  - reflexivity.
Defined.

(** X7: against a provider that fails four times in a row, the first three
    times with retryable errors, an invocation started at attempt 0 sends
    four messages, waits 1, 2 and 4 seconds in between and throws the
    message chosen for the fourth error alone; a first error that is not
    retryable ends it after one message and no wait. *)
Theorem generateResponse_gives_up (m : list Message) (u : option User)
  (w : World Script) (ai : GoogleGenAI) (l : Message) (es : list JsError)
  (e : JsError) (rest : list (string + JsError)) (dflt : string + JsError) :
  the_client w = Some ai ->
  last_entry m = Some l ->
  role l = "user" ->
  Forall (fun e' => isRetryable e' = true) es ->
  provider w = ((map inr es ++ inr e :: rest)%list, dflt) ->
  List.length es = MAX_RETRIES \/ (es = [] /\ isRetryable e = false) ->
  fst (generateResponse play m u 0 w) = inr (specific_error e) /\
  provider (snd (generateResponse play m u 0 w)) = (rest, dflt) /\
  journal (snd (generateResponse play m u 0 w))
  = (journal w ++ invocation_events ai m u l 0 (List.length es))%list /\
  timeouts (invocation_events ai m u l 0 (List.length es))
  = (if (List.length es =? 0)%nat then [] else [1000; 2000; 4000]%Z) /\
  List.length (sent (invocation_events ai m u l 0 (List.length es)))
  = List.length es + 1.
Proof.
  intros Hai Hl Hu Hes Hp Hcase.
  rewrite <- window_last_entry, <- trimChatHistory_window in Hl.
  assert (Hlen : List.length es <= MAX_RETRIES)
    by (destruct Hcase as [-> | [-> _]]; simpl; lia).
  rewrite (generateResponse_script m u ai l (inr e) rest dflt Hl Hu es 0 w
             Hai Hp Hes Hlen)
    by (destruct Hcase as [H | [_ H]]; [ now right | now left ]).
  destruct (invocation_events_projections ai m u l (List.length es) 0)
    as [Ht [_ [Hs _]]].
  repeat split.
  - rewrite Ht. destruct Hcase as [-> | [-> _]]; reflexivity.
  - rewrite Hs, length_map, length_seq. lia.
Qed.

Lemma generateResponse_gives_up_witness :
  fst (generateResponse play [ask "What is a stack?"] None 0
         (configured ([inr rate_limited; inr rate_limited; inr rate_limited;
                       inr overloaded], inl "unused")))
  = inr ProviderBusy.
Proof.
  apply (generateResponse_gives_up [ask "What is a stack?"] None
           (configured ([inr rate_limited; inr rate_limited; inr rate_limited;
                         inr overloaded], inl "unused"))
           {| apiKey := "test-key" |} (ask "What is a stack?")
           [rate_limited; rate_limited; rate_limited] overloaded [] (inl "unused")).
  - reflexivity.
  - reflexivity.
  - reflexivity.
  - repeat constructor.
  - reflexivity.
  - left. reflexivity.
Defined.

Lemma generateResponse_keeps_environment_witness :
  Forall (fun e => event_client e = None
                   \/ event_client e
                      = the_client (configured ([inr overloaded], inl "A LIFO.")))
    (attempt_calls {| apiKey := "test-key" |}
       (call_params [ask "What is a stack?"] None 0) "What is a stack?"
     ++ setTimeout 1000
        :: attempt_calls {| apiKey := "test-key" |}
             (call_params [ask "What is a stack?"] None 1) "What is a stack?").
Proof.
  apply (proj2 (proj2 (generateResponse_keeps_environment play
                         [ask "What is a stack?"] None 0
                         (configured ([inr overloaded], inl "A LIFO."))))).
  vm_compute. reflexivity.
Defined.

(** ** The errors an invocation throws *)

Lemma specific_error_forms (e0 : JsError) :
  status (specific_error e0) = None /\
  statusCode (specific_error e0) = None /\
  exists text,
    message (specific_error e0) = JsString text /\
    text <> "" /\
    (In text specific_messages \/
     text = "Failed to generate response: " ++ template (message e0) \/
     (specific_error e0 = not_a_function /\
      exists f, message e0 = JsForeign f /\ includes_method f = None)).
Proof.
  assert (Hchain : forall (c1 c2 c3 c4 c5 c6 c7 c8 c9 : bool) raw,
             let thrown :=
               throw_if (or_else (inr c1) (inr c2))
                 (Error "Invalid or missing Gemini API key. Please check your configuration.")
               (throw_if (inr c3)
                 (Error "API quota exceeded. Please try again later.")
               (throw_if (or_else (inr c4) (inr c5))
                 (Error "Response blocked due to safety settings. Please rephrase your question.")
               (throw_if (or_else (inr c6) (inr c7))
                 (Error "Model not found. Please check the model name configuration.")
               (throw_if (or_else (inr c8) (inr c9))
                 (Error "AI service is currently busy. Please try again in a moment.")
                 (Error ("Failed to generate response: " ++ raw)))))) in
             status thrown = None /\ statusCode thrown = None /\
             exists text,
               message thrown = JsString text /\ text <> "" /\
               (In text specific_messages \/
                text = "Failed to generate response: " ++ raw)).
  { intros c1 c2 c3 c4 c5 c6 c7 c8 c9 raw. unfold specific_messages.
    destruct c1, c2, c3, c4, c5, c6, c7, c8, c9; cbn;
      (split; [ reflexivity |]); (split; [ reflexivity |]);
      eexists; (split; [ reflexivity |]); (split; [ discriminate |]);
      auto 10. }
  unfold specific_error. destruct (message e0) as [| | text | f] eqn:Hm;
    cbn [message_includes template].
  - destruct (Hchain false false false false false false false
                (strict_eq (status e0) 503) false "undefined")
      as [Hs [Hc [text [Ht [Hne Hform]]]]].
    split; [ exact Hs |]. split; [ exact Hc |]. exists text.
    split; [ exact Ht |]. split; [ exact Hne |]. destruct Hform; auto.
  - destruct (Hchain false false false false false false false
                (strict_eq (status e0) 503) false "null")
      as [Hs [Hc [text [Ht [Hne Hform]]]]].
    split; [ exact Hs |]. split; [ exact Hc |]. exists text.
    split; [ exact Ht |]. split; [ exact Hne |]. destruct Hform; auto.
  - destruct (Hchain (JS.includes text "API key") (JS.includes text "API_KEY")
                (JS.includes text "quota") (JS.includes text "safety")
                (JS.includes text "SAFETY") (JS.includes text "not found")
                (JS.includes text "404") (strict_eq (status e0) 503)
                (JS.includes text "overloaded") text)
      as [Hs [Hc [t [Ht [Hne Hform]]]]].
    split; [ exact Hs |]. split; [ exact Hc |]. exists t.
    split; [ exact Ht |]. split; [ exact Hne |]. destruct Hform; auto.
  - destruct (includes_method f) as [g |] eqn:Hg.
    + destruct (Hchain (g "API key") (g "API_KEY") (g "quota") (g "safety")
                  (g "SAFETY") (g "not found") (g "404")
                  (strict_eq (status e0) 503) (g "overloaded") (template_text f))
        as [Hs [Hc [t [Ht [Hne Hform]]]]].
      split; [ exact Hs |]. split; [ exact Hc |]. exists t.
      split; [ exact Ht |]. split; [ exact Hne |]. destruct Hform; auto.
    + cbn. split; [ reflexivity |]. split; [ reflexivity |].
      eexists. split; [ reflexivity |]. split; [ discriminate |].
      right. right. split; [ reflexivity |]. now exists f.
Qed.

(** What the [try] block throws: an error made by [new Error] with a text,
    or an error of the provider. *)
Lemma generateResponse_try_error {Provider : Type} (respond : Responder Provider)
  (m : list Message) (u : option User) (r : nat) (w w1 : World Provider)
  (e0 : JsError) :
  generateResponse_try respond m u r w = (inr e0, w1) ->
  (exists text, e0 = Error text) \/
  (exists p chat msg p', respond p chat msg = (inr e0, p')).
Proof.
  rewrite generateResponse_try_spec.
  destruct (the_client w) as [ai |];
    [| intros H; injection H as <- _; left; eexists; reflexivity ].
  destruct (last_entry (trimChatHistory m)) as [l |];
    [| intros H; injection H as <- _; left; eexists; reflexivity ].
  destruct (role l =? "user")%string;
    [| intros H; injection H as <- _; left; eexists; reflexivity ].
  cbv zeta. destruct (respond _ _ _) as [[answer | e] p'] eqn:Hr;
    [ discriminate |].
  intros H. injection H as <- _. right. eauto.
Qed.

Lemma generateResponse_error_origin {Provider : Type}
  (respond : Responder Provider) (m : list Message) (u : option User) :
  forall (n r : nat) (w : World Provider) (e : JsError),
    MAX_RETRIES - r <= n ->
    fst (generateResponse respond m u r w) = inr e ->
    exists e0,
      e = specific_error e0 /\
      ((exists text, e0 = Error text) \/
       (exists p chat msg p', respond p chat msg = (inr e0, p'))).
Proof.
  induction n as [| n IH]; intros r w e Hn; rewrite generateResponse_step;
    destruct (generateResponse_try respond m u r w) as [[t | e0] w1] eqn:Htry;
    try discriminate;
    destruct (isRetryable e0 && (r <? MAX_RETRIES)%nat) eqn:Hretry;
    try (simpl; intros H; injection H as <-; exists e0;
         split; [ reflexivity | exact (generateResponse_try_error _ _ _ _ _ _ _ Htry) ]);
    apply andb_true_iff in Hretry; destruct Hretry as [_ Hlt];
    apply Nat.ltb_lt in Hlt; [ lia |].
  apply IH. lia.
Qed.

(** X8: whatever makes an invocation fail, the error thrown to the caller
    carries no [status] and no [statusCode], and its message is a string
    that is not empty.  When the provider only throws errors whose message
    is a string or missing, that string is one of the five fixed messages
    (API key, quota, safety, model not found, busy) or the catch-all prefix
    followed by a text. *)
Theorem generateResponse_error_taxonomy {Provider : Type}
  (respond : Responder Provider) (m : list Message) (u : option User) (r : nat)
  (w : World Provider) (e : JsError) :
  fst (generateResponse respond m u r w) = inr e ->
  status e = None /\ statusCode e = None /\
  exists text,
    message e = JsString text /\ text <> "" /\
    ((forall p chat msg e0 p',
         respond p chat msg = (inr e0, p') -> string_or_missing (message e0)) ->
     In text specific_messages \/
     exists raw, text = "Failed to generate response: " ++ raw).
Proof.
  intros H.
  destruct (generateResponse_error_origin respond m u (MAX_RETRIES - r) r w e
              (le_n _) H) as [e0 [-> Horigin]].
  destruct (specific_error_forms e0) as [Hs [Hc [text [Hm [Hne Hform]]]]].
  split; [ exact Hs |]. split; [ exact Hc |]. exists text.
  split; [ exact Hm |]. split; [ exact Hne |].
  intros Hplain.
  destruct Hform as [Hin | [Hraw | [_ [f [Hf _]]]]];
    [ now left | right; eexists; exact Hraw |].
  exfalso. destruct Horigin as [[t ->] | [p [chat [msg [p' Hr]]]]].
  - discriminate.
  - apply Hplain in Hr. rewrite Hf in Hr. exact Hr.
Qed.

Lemma generateResponse_error_taxonomy_witness :
  exists text,
    message ProviderBusy = JsString text /\ text <> "" /\
    (In text specific_messages \/
     exists raw, text = "Failed to generate response: " ++ raw).
Proof.
  destruct (generateResponse_error_taxonomy (constant (inr overloaded))
              [ask "What is a stack?"] None 3 configured_constant ProviderBusy
              ltac:(vm_compute; reflexivity))
    as [_ [_ [text [Hm [Hne Hform]]]]].
  exists text. split; [ exact Hm |]. split; [ exact Hne |].
  apply Hform. intros p chat msg e0 p' H. injection H as <- _. exact I.
Defined.

(** X9: an error that carries 503 in [statusCode] only ([status] missing or
    zero), with a string message that has none of the searched words, is
    retried like any 503 while retries are left; once they are used up the
    caller gets the catch-all message, not the busy one, because that test
    reads [status] alone. *)
Theorem statusCode_only_503 {Provider : Type} (respond : Responder Provider)
  (m : list Message) (u : option User) (a : nat) (w w1 : World Provider)
  (e : JsError) (text : string) :
  generateResponse_try respond m u a w = (inr e, w1) ->
  message e = JsString text ->
  status e = None \/ status e = Some 0%Z ->
  statusCode e = Some 503%Z ->
  earlier_pattern text = false ->
  JS.includes text "overloaded" = false ->
  isRetryable e = true /\
  (a < MAX_RETRIES ->
   generateResponse respond m u a w
   = generateResponse respond m u (a + 1) (sleep (backoff_delay a) w1)) /\
  (MAX_RETRIES <= a ->
   generateResponse respond m u a w
   = (inr (Error ("Failed to generate response: " ++ text)), w1)).
Proof.
  intros Htry Hm Hs Hc Hearly Hover.
  assert (Hretry : isRetryable e = true).
  { unfold isRetryable, errorStatus.
    destruct Hs as [-> | ->]; simpl; rewrite Hc; reflexivity. }
  split; [ exact Hretry |]. split; intros Ha.
  - rewrite generateResponse_step, Htry, Hretry.
    apply Nat.ltb_lt in Ha. now rewrite Ha.
  - rewrite (generateResponse_stops respond m u a w w1 e Htry).
    + rewrite (specific_error_late e text Hm Hearly), Hover.
      destruct Hs as [-> | ->]; reflexivity.
    + replace (a <? MAX_RETRIES)%nat with false
        by (symmetry; apply Nat.ltb_ge; exact Ha).
      apply andb_false_r.
Qed.

Lemma statusCode_only_503_witness :
  exists w1,
    generateResponse_try play [ask "What is a stack?"] None 3
      (configured ([], inr {| message := "Service Unavailable"; status := None;
                              statusCode := Some 503%Z |}))
    = (inr {| message := "Service Unavailable"; status := None;
              statusCode := Some 503%Z |}, w1) /\
    generateResponse play [ask "What is a stack?"] None 3
      (configured ([], inr {| message := "Service Unavailable"; status := None;
                              statusCode := Some 503%Z |}))
    = (inr (Error "Failed to generate response: Service Unavailable"), w1).
Proof.
  eexists. split; [ vm_compute; reflexivity |].
  apply (statusCode_only_503 play [ask "What is a stack?"] None 3
           (configured ([], inr {| message := "Service Unavailable"; status := None;
                                   statusCode := Some 503%Z |})) _
           {| message := "Service Unavailable"; status := None;
              statusCode := Some 503%Z |} "Service Unavailable").
  - vm_compute. reflexivity.
  - reflexivity.
  - now left.
  - reflexivity.
  - reflexivity.
  - reflexivity.
  - unfold MAX_RETRIES. lia.
Defined.

(** ** More on the window *)

(** X10: trimming keeps a suffix of the history, so the newest entry is
    never dropped (the test on the last entry's role sees the same entry
    with or without trimming); and the window can be kept up to date
    step by step: trimming a history extended by new entries gives the same
    as trimming the old window extended by them. *)
Theorem trimChatHistory_suffix :
  (forall m, exists older, m = (older ++ trimChatHistory m)%list) /\
  (forall m, last_entry (trimChatHistory m) = last_entry m) /\
  (forall a b,
      trimChatHistory (a ++ b) = trimChatHistory (trimChatHistory a ++ b)).
Proof.
  split; [| split ].
  - intros m. rewrite trimChatHistory_window. eexists. apply window_split.
  - intros m. rewrite trimChatHistory_window. apply window_last_entry.
  - intros a b. rewrite !trimChatHistory_window.
    assert (Hwa : List.length (window a)
                  = Nat.min (List.length a) MAX_HISTORY_MESSAGES)
      by apply window_length.
    set (wa := window a) in *. unfold window.
    rewrite !length_app, !skipn_app, Hwa. subst wa. unfold window.
    rewrite skipn_skipn. unfold MAX_HISTORY_MESSAGES.
    f_equal; f_equal; lia.
Qed.

(** ** More on the prompt *)

Lemma trimStart_only_spaces (s : string) :
  only_spaces s = true -> JS.trimStart s = "".
Proof.
  unfold JS.trimStart.
  assert (H : forall n t, String.length t <= n -> only_spaces t = true ->
                          JS.trimStart_fuel n t = "").
  { induction n as [| n IH]; intros t Hn Ht.
    - destruct t; [ reflexivity | simpl in Hn; lia ].
    - destruct t as [| c t]; [ reflexivity |].
      simpl in Ht. apply andb_true_iff in Ht. destruct Ht as [Hc Ht].
      cbn [JS.trimStart_fuel JS.strip_ws]. unfold ascii_space in Hc.
      cbv zeta in *. rewrite Hc. apply IH; [ simpl in Hn; lia | exact Ht ]. }
  now apply H.
Qed.

(** X11: the base prompt always comes first and unchanged; a profile whose
    interests are missing or empty and whose persona is missing or blank
    (its [trim()] is empty, as for a text of ASCII white space) adds
    nothing to it; a persona alone adds its clause only, with the text as
    given (not trimmed), and interests alone add theirs only. *)
Theorem buildPersonalizedPrompt_optional_clauses :
  (forall user, exists suffix, buildPersonalizedPrompt user = SYSTEM_PROMPT ++ suffix) /\
  (forall tags p,
      tags = None \/ tags = Some [] ->
      p = None \/ (exists text, p = Some text /\ JS.trim text = "") ->
      buildPersonalizedPrompt (Some {| interests := tags; persona := p |})
      = SYSTEM_PROMPT) /\
  (forall text, only_spaces text = true -> JS.trim text = "") /\
  (forall tags text,
      tags = None \/ tags = Some [] ->
      JS.trim text <> "" ->
      buildPersonalizedPrompt (Some {| interests := tags; persona := Some text |})
      = SYSTEM_PROMPT
        ++ JS.nl ++ JS.nl ++ "# USER'S CUSTOM INSTRUCTIONS:" ++ JS.nl ++ text) /\
  (forall tags p,
      tags <> [] ->
      p = None \/ (exists text, p = Some text /\ JS.trim text = "") ->
      buildPersonalizedPrompt (Some {| interests := Some tags; persona := p |})
      = SYSTEM_PROMPT
        ++ JS.nl ++ JS.nl ++ "# USER'S INTERESTS:" ++ JS.nl
        ++ "This user is particularly interested in: "
        ++ String.concat ", " tags
        ++ ". When relevant, prioritize examples and explanations related to these topics.").
Proof.
  assert (Hno_tags : forall tags p,
             tags = None \/ tags = Some [] ->
             has_interests (Some {| interests := tags; persona := p |}) = None).
  { intros tags p [-> | ->]; reflexivity. }
  assert (Hno_persona : forall tags p,
             p = None \/ (exists text, p = Some text /\ JS.trim text = "") ->
             has_persona (Some {| interests := tags; persona := p |}) = None).
  { intros tags p [-> | [text [-> Ht]]]; [ reflexivity |].
    unfold has_persona. simpl. now rewrite Ht. }
  split; [| split; [| split; [| split ] ] ].
  - intros user. unfold buildPersonalizedPrompt.
    destruct (has_interests user) as [tags |], (has_persona user) as [p |].
    + eexists. rewrite string_app_assoc. reflexivity.
    + eexists. reflexivity.
    + eexists. reflexivity.
    + exists "". clear. induction SYSTEM_PROMPT as [| c s IH]; simpl;
        [ reflexivity | now rewrite <- IH ].
  - intros tags p Ht Hp. unfold buildPersonalizedPrompt.
    now rewrite (Hno_tags tags p Ht), (Hno_persona tags p Hp).
  - intros text H. unfold JS.trim. now rewrite (trimStart_only_spaces text H).
  - intros tags text Ht Hp. unfold buildPersonalizedPrompt.
    rewrite (Hno_tags tags (Some text) Ht). unfold has_persona. simpl.
    destruct (JS.trim text); [ congruence | reflexivity ].
  - intros tags p Ht Hp. unfold buildPersonalizedPrompt.
    rewrite (Hno_persona (Some tags) p Hp). unfold has_interests. simpl.
    destruct tags as [| t tags]; [ congruence |]. simpl.
    unfold interests_clause, JS.join. reflexivity.
Qed.

Lemma buildPersonalizedPrompt_optional_clauses_witness :
  buildPersonalizedPrompt
    (Some {| interests := Some [];
             persona := Some (" " ++ JS.nl ++ "  ") |})
  = SYSTEM_PROMPT.
Proof.
  apply (proj1 (proj2 buildPersonalizedPrompt_optional_clauses)).
  - now right.
  - right. eexists. split; [ reflexivity |].
    apply (proj1 (proj2 (proj2 buildPersonalizedPrompt_optional_clauses))).
    reflexivity.
Defined.

(** ** The title of a chat *)

Lemma utf16_from_ascii (s : string) :
  (forall c, In c (list_ascii_of_string s) -> (N_of_ascii c < 128)%N) ->
  utf16_from 0 0 s = map N_of_ascii (list_ascii_of_string s).
Proof.
  induction s as [| c s IH]; intros H; [ reflexivity |].
  cbn [utf16_from list_ascii_of_string map].
  assert (Hc : (N_of_ascii c < 128)%N) by (apply H; now left).
  apply N.ltb_lt in Hc. rewrite Hc. f_equal. apply IH.
  intros d Hd. apply H. now right.
Qed.

(** X12: the title made from the first message has at most 53 UTF-16 code
    units, below the limit of 100 of the chat schema: a content of at most
    50 units is taken whole, a longer one is cut after 50 units and
    followed by three dots.  For an ASCII content the units are its
    characters. *)
Theorem truncated_title_bound (content : string) :
  List.length (truncated_title content) <= 53 /\
  53 <= title_maxlength /\
  (List.length (utf16 content) <= 50 -> truncated_title content = utf16 content) /\
  (50 < List.length (utf16 content) ->
   truncated_title content = (firstn 50 (utf16 content) ++ [46; 46; 46]%N)%list /\
   List.length (truncated_title content) = 53) /\
  ((forall c, In c (list_ascii_of_string content) -> (N_of_ascii c < 128)%N) ->
   utf16 content = map N_of_ascii (list_ascii_of_string content)).
Proof.
  assert (Hslice : JS.slice (utf16 content) 0 (Some 50%Z)
                   = firstn 50 (utf16 content)).
  { unfold JS.slice. cbn -[Z.of_nat Z.min Z.to_nat Z.sub utf16 firstn skipn].
    rewrite (Z.min_l 0) by lia. change (Z.to_nat 0) with 0.
    rewrite skipn_O, Z.sub_0_r.
    destruct (Nat.le_gt_cases (List.length (utf16 content)) 50) as [H | H].
    - rewrite Z.min_r by lia. rewrite Nat2Z.id.
      rewrite !firstn_all2; [ reflexivity | exact H | lia ].
    - rewrite Z.min_l by lia. reflexivity. }
  unfold truncated_title. rewrite Hslice.
  destruct (Nat.ltb_spec 50 (List.length (utf16 content))) as [H | H].
  - assert (Hlen : List.length (firstn 50 (utf16 content) ++ utf16 "...") = 53).
    { rewrite length_app, length_firstn.
      change (List.length (utf16 "...")) with 3. lia. }
    split; [ lia |]. split; [ unfold title_maxlength; lia |].
    split; [ lia |]. split; [ intros _; split; [ reflexivity | exact Hlen ] |].
    apply utf16_from_ascii.
  - split; [ rewrite app_nil_r, length_firstn; lia |].
    split; [ unfold title_maxlength; lia |].
    split; [ intros _; rewrite app_nil_r; now apply firstn_all2 |].
    split; [ lia |]. apply utf16_from_ascii.
Qed.

Lemma truncated_title_bound_witness :
  truncated_title "What is a stack?" = utf16 "What is a stack?".
Proof.
  apply (proj1 (proj2 (proj2 (truncated_title_bound "What is a stack?")))).
  change (List.length (utf16 "What is a stack?")) with 16. lia.
Defined.

(** ** The handler of [POST /api/chat/:id/message] *)

(** The leaves of the case analysis of the handler: the calls made so
    far are read off the goal. *)
Ltac handler_conjuncts origin :=
  split; [ rewrite <- ?app_assoc; reflexivity |];
  split; [ cbn; tauto |];
  split; [ intros Hnone; try reflexivity; exfalso;
           eapply Hnone; cbn; eauto 10 |];
  split;
    [ intros c answer' Hin; cbn in Hin;
      repeat (destruct Hin as [Hin | Hin]; try discriminate);
      try contradiction;
      try (injection Hin as <- <-; origin)
    | intros Hstatus; cbn in Hstatus; try discriminate;
      eexists; eexists; eexists; split; cbn; eauto 10 ].

Ltac handler_leaf :=
  eexists; handler_conjuncts idtac.

Ltac handler_leaf_bot chat content userMessage docs b1 b2 b3 :=
  eexists;
  handler_conjuncts
    ltac:(exists chat, content, userMessage, docs, b1, b2, b3;
          repeat split; assumption).

Section HandlerProperties.

Context {Provider Backend : Type}.
Variable respond : Provider -> Chat -> string -> (string + JsError) * Provider.
Variable Chat_findOne :
  string -> string -> Backend -> (option ChatDoc + JsError) * Backend.
Variable Message_create :
  string -> Message -> Backend -> (MessageDoc + JsError) * Backend.
Variable Message_find : string -> Backend -> (list MessageDoc + JsError) * Backend.
Variable chat_save : ChatDoc -> Backend -> (unit + JsError) * Backend.
Variable Date_now : Backend -> Z * Backend.

(** X13: a request for a chat that is not found gets 404, one without
    content (missing or empty) gets 400, and one whose chat lookup throws
    gets 500 with the error's message (or "Server error" when it is
    falsy: missing or empty).  In all three cases the lookup is the only call to the
    database: nothing is stored, and the provider's world is untouched. *)
Theorem postMessage_early_answers (req : Request) (s : Server Provider Backend) :
  (forall b1,
      Chat_findOne (params_id req) (user_id req) (backend s) = (inl None, b1) ->
      postMessage respond Chat_findOne Message_create Message_find chat_save Date_now
    req s
      = ({| res_status := 404; res_body := json_message "Chat not found" |},
         {| backend := b1; world := world s;
            db_calls := (db_calls s
                         ++ [Chat_findOne_call (params_id req) (user_id req)])%list |})) /\
  (forall chat b1,
      Chat_findOne (params_id req) (user_id req) (backend s) = (inl (Some chat), b1) ->
      body_content req = None \/ body_content req = Some "" ->
      postMessage respond Chat_findOne Message_create Message_find chat_save Date_now
    req s
      = ({| res_status := 400;
            res_body := json_message "Message content is required" |},
         {| backend := b1; world := world s;
            db_calls := (db_calls s
                         ++ [Chat_findOne_call (params_id req) (user_id req)])%list |})) /\
  (forall e b1,
      Chat_findOne (params_id req) (user_id req) (backend s) = (inr e, b1) ->
      postMessage respond Chat_findOne Message_create Message_find chat_save Date_now
    req s
      = ({| res_status := 500;
            res_body := json_message (if truthy_value (message e)
                                      then message e else "Server error") |},
         {| backend := b1; world := world s;
            db_calls := (db_calls s
                         ++ [Chat_findOne_call (params_id req) (user_id req)])%list |})).
Proof.
  unfold postMessage, postMessage_try, hbind, db, hret.
  split; [| split ].
  - intros b1 H. rewrite H. reflexivity.
  - intros chat b1 H Hc. rewrite H. destruct Hc as [-> | ->]; reflexivity.
  - intros e b1 H. rewrite H. reflexivity.
Qed.

(** X14: when the generator fails, the handler answers 500 with the
    generator's message as it is (a string that is never empty, so the
    fallback text is not used).  By then the user's message has been
    stored; no bot message is stored, the chat is not saved, and the calls
    to the database are the lookup, the creation of the user's message and
    the reading of the history.  When the provider only throws errors whose
    message is a string or missing, the message sent is one of the
    generator's fixed messages or has the catch-all form. *)
Theorem postMessage_generation_failure (req : Request)
  (s : Server Provider Backend) (chat : ChatDoc) (content : string)
  (userMessage : MessageDoc) (docs : list MessageDoc) (b1 b2 b3 : Backend)
  (e : JsError) (w' : World Provider) :
  Chat_findOne (params_id req) (user_id req) (backend s) = (inl (Some chat), b1) ->
  body_content req = Some content ->
  content <> "" ->
  Message_create (chat_id chat) {| role := "user"; content := content |} b1
  = (inl userMessage, b2) ->
  Message_find (chat_id chat) b2 = (inl docs, b3) ->
  generateResponse respond (map stored docs) (Some (req_user req)) 0 (world s)
  = (inr e, w') ->
  postMessage respond Chat_findOne Message_create Message_find chat_save Date_now
    req s
  = ({| res_status := 500; res_body := json_message (message e) |},
     {| backend := b3; world := w';
        db_calls := (db_calls s
                     ++ [ Chat_findOne_call (params_id req) (user_id req);
                          Message_create_call (chat_id chat)
                            {| role := "user"; content := content |};
                          Message_find_call (chat_id chat) ])%list |}) /\
  exists text,
    message e = JsString text /\ text <> "" /\
    ((forall p c msg e0 p',
         respond p c msg = (inr e0, p') -> string_or_missing (message e0)) ->
     In text specific_messages \/
     exists raw, text = "Failed to generate response: " ++ raw).
Proof.
  intros Hchat Hbody Hne Hcreate Hfind Hgen.
  assert (Horigin : exists e0,
             e = specific_error e0 /\
             ((exists text, e0 = Error text) \/
              (exists p c msg p', respond p c msg = (inr e0, p')))).
  { apply (generateResponse_error_origin respond (map stored docs)
             (Some (req_user req)) (MAX_RETRIES - 0) 0 (world s) e (le_n _)).
    now rewrite Hgen. }
  destruct Horigin as [e0 [-> Horigin]].
  destruct (specific_error_forms e0) as [_ [_ [text [Hm [Htext Hform]]]]].
  split.
  - unfold postMessage, postMessage_try, hbind, db, hret, generate.
    rewrite Hchat, Hbody. destruct content as [| c content]; [ congruence |].
    cbn [JS.truthy_string negb]. cbv iota. cbn [backend world db_calls].
    rewrite Hcreate. cbn [backend world db_calls]. rewrite Hfind.
    cbn [backend world db_calls]. rewrite Hgen, Hm.
    destruct text as [| c' text]; [ congruence |].
    cbn [truthy_value JS.truthy_string]. rewrite <- !app_assoc. reflexivity.
  - exists text. split; [ exact Hm |]. split; [ exact Htext |].
    intros Hplain.
    destruct Hform as [Hin | [Hraw | [_ [f [Hf _]]]]];
      [ now left | right; eexists; exact Hraw |].
    exfalso. destruct Horigin as [[t ->] | [p [c [msg [p' Hr]]]]].
    + discriminate.
    + apply Hplain in Hr. rewrite Hf in Hr. exact Hr.
Qed.

(** X15: when every step succeeds, the handler answers 200 with the stored
    user message, the stored bot message and the chat's title.  The bot
    message is created with role "bot" and the generator's text as it is.
    When the history read back has at most one message the chat is saved
    with the title cut from the content; otherwise the clock is read and
    the chat is saved with its title unchanged. *)
Theorem postMessage_success (req : Request) (s : Server Provider Backend)
  (chat : ChatDoc) (content answer : string) (userMessage botMessage : MessageDoc)
  (docs : list MessageDoc) (b1 b2 b3 b4 b5 b6 : Backend) (t : Z)
  (w' : World Provider) :
  Chat_findOne (params_id req) (user_id req) (backend s) = (inl (Some chat), b1) ->
  body_content req = Some content ->
  content <> "" ->
  Message_create (chat_id chat) {| role := "user"; content := content |} b1
  = (inl userMessage, b2) ->
  Message_find (chat_id chat) b2 = (inl docs, b3) ->
  generateResponse respond (map stored docs) (Some (req_user req)) 0 (world s)
  = (inl answer, w') ->
  Message_create (chat_id chat) {| role := "bot"; content := answer |} b3
  = (inl botMessage, b4) ->
  Date_now b4 = (t, b5) ->
  chat_save (if (List.length docs <=? 1)%nat
             then {| chat_id := chat_id chat; userId := userId chat;
                     title := truncated_title content;
                     updatedAt := updatedAt chat |}
             else {| chat_id := chat_id chat; userId := userId chat;
                     title := title chat; updatedAt := t |})
            (if (List.length docs <=? 1)%nat then b4 else b5)
  = (inl tt, b6) ->
  postMessage respond Chat_findOne Message_create Message_find chat_save Date_now
    req s
  = ({| res_status := 200;
        res_body := json_reply userMessage botMessage
                      (if (List.length docs <=? 1)%nat
                       then truncated_title content else title chat) |},
     {| backend := b6; world := w';
        db_calls :=
          (db_calls s
           ++ [ Chat_findOne_call (params_id req) (user_id req);
                Message_create_call (chat_id chat)
                  {| role := "user"; content := content |};
                Message_find_call (chat_id chat);
                Message_create_call (chat_id chat)
                  {| role := "bot"; content := answer |} ]
           ++ (if (List.length docs <=? 1)%nat
               then [ chat_save_call
                        {| chat_id := chat_id chat; userId := userId chat;
                           title := truncated_title content;
                           updatedAt := updatedAt chat |} ]
               else [ Date_now_call;
                      chat_save_call
                        {| chat_id := chat_id chat; userId := userId chat;
                           title := title chat; updatedAt := t |} ]))%list |}).
Proof.
  intros Hchat Hbody Hne Hcreate Hfind Hgen Hbot Hnow Hsave.
  unfold postMessage, postMessage_try, hbind, db, hret, generate, now, db.
  rewrite Hchat, Hbody. destruct content as [| c content]; [ congruence |].
  cbn [JS.truthy_string negb]. cbv iota. cbn [backend world db_calls].
  rewrite Hcreate. cbn [backend world db_calls]. rewrite Hfind.
  cbn [backend world db_calls]. rewrite Hgen. cbn [backend world db_calls].
  rewrite Hbot. cbn [backend world db_calls].
  destruct (List.length docs <=? 1)%nat; cbv zeta.
  - cbn [backend world db_calls]. rewrite Hsave. cbn [title].
    rewrite <- !app_assoc. reflexivity.
  - cbn [backend world db_calls]. cbv beta. rewrite Hnow.
    cbn [backend world db_calls]. rewrite Hsave. cbn [title].
    rewrite <- !app_assoc. reflexivity.
Qed.

(** X16: whatever the database and the provider do, the handler answers
    with one of the status codes 200, 400, 404 and 500; it leaves the
    provider's world untouched unless it has first asked the database to
    store a message; it asks to store a bot message only for the chat it
    looked up, after storing the request's content as a user message, and
    only with a text the generator returned, called at attempt 0 with the
    request's user, for the history the database then read back for that
    chat; and it answers 200 only after asking to store the bot message
    and to save the chat. *)
Theorem postMessage_invariants (req : Request) (s : Server Provider Backend) :
  exists calls,
    db_calls (snd (postMessage respond Chat_findOne Message_create Message_find
                     chat_save Date_now req s))
    = (db_calls s ++ calls)%list /\
    In (res_status (fst (postMessage respond Chat_findOne Message_create
                           Message_find chat_save Date_now req s)))
       [200; 400; 404; 500]%Z /\
    ((forall c msg, ~ In (Message_create_call c msg) calls) ->
     world (snd (postMessage respond Chat_findOne Message_create Message_find
                   chat_save Date_now req s)) = world s) /\
    (forall c answer,
        In (Message_create_call c {| role := "bot"; content := answer |}) calls ->
        exists chat content userMessage docs b1 b2 b3,
          c = chat_id chat /\
          Chat_findOne (params_id req) (user_id req) (backend s)
          = (inl (Some chat), b1) /\
          body_content req = Some content /\
          Message_create (chat_id chat) {| role := "user"; content := content |} b1
          = (inl userMessage, b2) /\
          Message_find (chat_id chat) b2 = (inl docs, b3) /\
          generateResponse respond (map stored docs) (Some (req_user req)) 0
            (world s)
          = (inl answer,
             world (snd (postMessage respond Chat_findOne Message_create
                           Message_find chat_save Date_now req s)))) /\
    (res_status (fst (postMessage respond Chat_findOne Message_create
                        Message_find chat_save Date_now req s)) = 200%Z ->
     exists c answer chat,
       In (Message_create_call c {| role := "bot"; content := answer |}) calls /\
       In (chat_save_call chat) calls).
Proof.
  unfold postMessage, postMessage_try, hbind, db, hret, generate, now, db.
  destruct (Chat_findOne _ _ _) as [[[chat |] | e] b1] eqn:Hchat;
    cbn [backend world db_calls]; try solve [ handler_leaf ].
  destruct (body_content req) as [[| ch content] |] eqn:Hbody;
    cbn [JS.truthy_string negb]; cbv iota; try solve [ handler_leaf ].
  destruct (Message_create _ _ _) as [[userMessage | e] b2] eqn:Hcreate;
    cbn [backend world db_calls]; try solve [ handler_leaf ].
  destruct (Message_find _ _) as [[docs | e] b3] eqn:Hfind;
    cbn [backend world db_calls]; try solve [ handler_leaf ].
  destruct (generateResponse _ _ _ _ _) as [[answer | e] w'] eqn:Hgen;
    cbn [backend world db_calls]; try solve [ handler_leaf ].
  destruct (Message_create _ _ b3) as [[botMessage | e] b4];
    cbn [backend world db_calls];
    try solve [ handler_leaf_bot chat (String ch content) userMessage docs b1 b2 b3 ].
  destruct (List.length docs <=? 1)%nat; cbv zeta; cbv beta;
    cbn [backend world db_calls].
  - destruct (chat_save _ _) as [[[] | e] b5]; cbn [backend world db_calls];
      handler_leaf_bot chat (String ch content) userMessage docs b1 b2 b3.
  - destruct (Date_now b4) as [t b5]. cbn [backend world db_calls].
    destruct (chat_save _ _) as [[[] | e] b6]; cbn [backend world db_calls];
      handler_leaf_bot chat (String ch content) userMessage docs b1 b2 b3.
Qed.

End HandlerProperties.

Lemma postMessage_early_answers_witness :
  mem_postMessage (sample_request (Some ""))
    (sample_server (configured ([], inl "unused")))
  = ({| res_status := 400; res_body := json_message "Message content is required" |},
     {| backend := {| chats := [sample_chat]; messages := []; clock := 1 |};
        world := configured ([], inl "unused");
        db_calls := [Chat_findOne_call "c1" "u1"] |}).
Proof.
  apply (proj1 (proj2 (postMessage_early_answers play mem_findOne mem_create
                         mem_find mem_save mem_now (sample_request (Some ""))
                         (sample_server (configured ([], inl "unused")))))
           sample_chat).
  - reflexivity.
  - now right.
Defined.

Lemma postMessage_generation_failure_witness :
  fst (mem_postMessage (sample_request (Some "What is a stack?"))
         (sample_server (unconfigured ([], inl "unused"))))
  = {| res_status := 500;
       res_body := json_message
                     "Invalid or missing Gemini API key. Please check your configuration." |} /\
  map stored
    (messages (backend (snd (mem_postMessage
                               (sample_request (Some "What is a stack?"))
                               (sample_server (unconfigured ([], inl "unused")))))))
  = [ask "What is a stack?"].
Proof.
  unfold mem_postMessage.
  rewrite (proj1 (postMessage_generation_failure play mem_findOne mem_create
                    mem_find mem_save mem_now
                    (sample_request (Some "What is a stack?"))
                    (sample_server (unconfigured ([], inl "unused")))
                    sample_chat "What is a stack?"
                    {| chatId := "c1"; stored := ask "What is a stack?";
                       timestamp := 1 |}
                    [ {| chatId := "c1"; stored := ask "What is a stack?";
                         timestamp := 1 |} ]
                    {| chats := [sample_chat]; messages := []; clock := 1 |}
                    {| chats := [sample_chat];
                       messages := [ {| chatId := "c1";
                                        stored := ask "What is a stack?";
                                        timestamp := 1 |} ];
                       clock := 2 |}
                    {| chats := [sample_chat];
                       messages := [ {| chatId := "c1";
                                        stored := ask "What is a stack?";
                                        timestamp := 1 |} ];
                       clock := 2 |}
                    ConfigurationError (unconfigured ([], inl "unused"))
                    eq_refl eq_refl ltac:(discriminate) eq_refl eq_refl eq_refl)).
  split; reflexivity.
Defined.

Lemma postMessage_success_witness :
  fst (mem_postMessage (sample_request (Some "What is a stack?"))
         (sample_server (configured ([], inl "A LIFO."))))
  = {| res_status := 200;
       res_body := json_reply
                     {| chatId := "c1"; stored := ask "What is a stack?";
                        timestamp := 1 |}
                     {| chatId := "c1";
                        stored := {| role := "bot"; content := "A LIFO." |};
                        timestamp := 2 |}
                     (utf16 "What is a stack?") |}.
Proof.
  pose (um := {| chatId := "c1"; stored := ask "What is a stack?"; timestamp := 1 |}).
  pose (bm := {| chatId := "c1";
                 stored := {| role := "bot"; content := "A LIFO." |};
                 timestamp := 2 |}).
  pose (b1 := {| chats := [sample_chat]; messages := []; clock := 1 |}).
  pose (b2 := {| chats := [sample_chat]; messages := [um]; clock := 2 |}).
  pose (b4 := {| chats := [sample_chat]; messages := [um; bm]; clock := 3 |}).
  pose (b5 := {| chats := [sample_chat]; messages := [um; bm]; clock := 4 |}).
  pose (b6 := {| chats := [ {| chat_id := "c1"; userId := "u1";
                               title := truncated_title "What is a stack?";
                               updatedAt := 0 |} ];
                 messages := [um; bm]; clock := 3 |}).
  assert (Hgen : generateResponse play (map stored [um])
                   (Some (req_user (sample_request (Some "What is a stack?")))) 0
                   (world (sample_server (configured ([], inl "A LIFO."))))
                 = (inl "A LIFO.",
                    snd (generateResponse play [ask "What is a stack?"]
                           (Some {| interests := Some []; persona := Some "" |}) 0
                           (configured ([], inl "A LIFO.")))))
    by (vm_compute; reflexivity).
  unfold mem_postMessage.
  rewrite (postMessage_success play mem_findOne mem_create mem_find mem_save
             mem_now (sample_request (Some "What is a stack?"))
             (sample_server (configured ([], inl "A LIFO.")))
             sample_chat "What is a stack?" "A LIFO." um bm [um]
             b1 b2 b2 b4 b5 b6 3 _
             eq_refl eq_refl ltac:(discriminate) eq_refl eq_refl Hgen
             eq_refl eq_refl eq_refl).
  reflexivity.
Defined.

Lemma postMessage_invariants_witness :
  In (res_status (fst (mem_postMessage (sample_request (Some "What is a stack?"))
                         (sample_server (configured ([], inl "A LIFO."))))))
     [200; 400; 404; 500]%Z.
Proof.
  destruct (postMessage_invariants play mem_findOne mem_create mem_find mem_save
              mem_now (sample_request (Some "What is a stack?"))
              (sample_server (configured ([], inl "A LIFO."))))
    as [calls [_ [Hstatus _]]].
  exact Hstatus.
Defined.
